(** * Supabase Edge Function provider: resource and data-source handlers

    A shallow embedding of [function_resource.go] and
    [function_body_data_source.go] of the Terraform provider, together with
    the parts of the Go standard library (path/filepath, mime/multipart,
    encoding/json), of the Terraform plugin framework (attribute values,
    diagnostics, schema validation and defaults) and of the generated API
    client that the two handlers rely on.

    Conventions.
    - A Go [string] and a Go [[]byte] are both byte sequences; the former is
      a Rocq [string], the latter a [list byte], and the conversion
      [string(b)] is [string_of_list_byte].
    - A Go [error] is represented by its message; a nil error is [None].
    - Calls of the generated API client are the only externally visible
      effect of a handler.  A handler is a program of type [Prog], a tree
      whose nodes are the client calls and whose branches are the replies of
      the remote API; [run] executes such a program against an arbitrary,
      possibly history dependent, API and records every call issued. *)

From Stdlib Require Import Strings.String Strings.Ascii Strings.Byte DecimalString.
From Stdlib Require Import List ZArith Bool Lia.
Import ListNotations.
Open Scope list_scope.
Open Scope string_scope.

Set Implicit Arguments.
Set Warnings "-register-all".

(** ** Go values *)

Definition error := string.
Definition bytes := list byte.

(** [fmt.Sprintf("%d", n)] *)
Definition fmt_d (n : Z) : string := NilZero.string_of_int (Z.to_int n).

(** [string(b)] for [b : []byte] *)
Definition string_of_bytes (b : bytes) : string := string_of_list_byte b.

(** [strings.Join] *)
Fixpoint strings_Join (elems : list string) (sep : string) : string :=
  match elems with
  | [] => EmptyString
  | [s] => s
  | s :: rest => s ++ sep ++ strings_Join rest sep
  end.

(** [strings.ReplaceAll] for a one-byte pattern and a one-byte replacement *)
Fixpoint strings_ReplaceAll (s : string) (old new : ascii) : string :=
  match s with
  | EmptyString => EmptyString
  | String c rest =>
      String (if Ascii.eqb c old then new else c) (strings_ReplaceAll rest old new)
  end.

(** ** The source tree on disk

    What [os.Lstat], the directory listing of [filepath.Walk] and
    [os.Open]/[io.Copy] observe at and below a path.  The entries of a
    directory are listed in the order in which [filepath.Walk] visits them
    (it sorts the names it reads). *)

(** An open file: the bytes that can be read from it, and the error that
    ends the reading if it is not the end of the file. *)
Record os_File := {
  readable : bytes;
  read_error : option error
}.

Definition whole (content : bytes) : os_File :=
  {| readable := content; read_error := None |}.

Inductive node : Type :=
| NoEnt (e : error)                       (* os.Lstat fails *)
| File (f : os_File + error)              (* not a directory; what os.Open gives *)
| DirErr (e : error)                      (* a directory that cannot be listed *)
| Dir (entries : list (string * node)).

Definition IsDir (info : node) : bool :=
  match info with
  | DirErr _ | Dir _ => true
  | NoEnt _ | File _ => false
  end.

(** [os.Open], at the entry that [os.Lstat] described. *)
Definition os_Open (info : node) : os_File + error :=
  match info with
  | File f => f
  | NoEnt e => inr e
  | DirErr _ | Dir _ =>
      inl {| readable := []; read_error := Some "read: is a directory" |}
  end.

(** Induction over the tree, with the hypothesis available for every entry of
    a directory. *)
Section node_induction.
Variable P : node -> Prop.
Hypothesis HNoEnt : forall e, P (NoEnt e).
Hypothesis HFile : forall f, P (File f).
Hypothesis HDirErr : forall e, P (DirErr e).
Hypothesis HDir : forall entries,
    Forall (fun ne => P (snd ne)) entries -> P (Dir entries).

Fixpoint node_tree_ind (n : node) : P n :=
  match n with
  | NoEnt e => HNoEnt e
  | File f => HFile f
  | DirErr e => HDirErr e
  | Dir entries =>
      HDir ((fix all (l : list (string * node)) : Forall (fun ne => P (snd ne)) l :=
               match l with
               | [] => Forall_nil _
               | ne :: l' => Forall_cons ne (node_tree_ind (snd ne)) (all l')
               end) entries)
  end.
End node_induction.

(** ** path/filepath *)

Inductive GOOS := unix | windows.

Module filepath.

Definition Separator (os : GOOS) : ascii :=
  match os with unix => "/"%char | windows => "\"%char end.

(** [filepath.ToSlash] *)
Definition ToSlash (os : GOOS) (path : string) : string :=
  if Ascii.eqb (Separator os) "/"%char then path
  else strings_ReplaceAll path (Separator os) "/"%char.

(** A path handed to the walk function is the walk root followed by the
    names of the entries descended into; it is kept as that list of names.
    [filepath.Rel root path] is then the names joined by the separator, and
    ["."] for the root itself; on such a path it returns no error. *)
Definition Rel (os : GOOS) (names : list string) : string * option error :=
  match names with
  | [] => (".", None)
  | _ => (strings_Join names (String (Separator os) EmptyString), None)
  end.

(** [filepath.Walk root fn], threading the state [W] that [fn] mutates.
    The walk function of this provider returns either nil or an ordinary
    error, never [filepath.SkipDir] or [filepath.SkipAll], so the handling
    of these two sentinels is left out. *)
Section Walk.
Variable W : Type.
Variable fn : W -> list string -> node -> option error -> W * option error.

Fixpoint walk (w : W) (path : list string) (info : node) {struct info}
  : W * option error :=
  match info with
  | NoEnt e => fn w path info (Some e)
  | File _ => fn w path info None
  | DirErr e => fn w path info (Some e)
  | Dir entries =>
      match fn w path info None with
      | (w1, Some err1) => (w1, Some err1)
      | (w1, None) =>
          (fix range (w : W) (l : list (string * node)) {struct l}
             : W * option error :=
             match l with
             | [] => (w, None)
             | (name, child) :: l' =>
                 match walk w (path ++ [name])%list child with
                 | (w2, Some err) => (w2, Some err)
                 | (w2, None) => range w2 l'
                 end
             end) w1 entries
      end
  end.

Definition Walk (w : W) (root : node) : W * option error := walk w [] root.
End Walk.

End filepath.

(** ** mime/multipart *)

Module multipart.

Record Part := {
  FormName : string;
  FileName : option string;
  ContentType : option string;
  Content : bytes
}.

(** The writer holds the parts written so far, the most recent first; the
    most recent part is the one that [Write] appends to. *)
Record Writer := {
  Boundary : string;
  parts : list Part
}.

Definition NewWriter (boundary : string) : Writer :=
  {| Boundary := boundary; parts := [] |}.

Definition CreatePart (p : Part) (w : Writer) : Writer :=
  {| Boundary := Boundary w; parts := p :: parts w |}.

(** [escapeQuotes]: how the writer writes a field name or a file name between
    the quotes of the [Content-Disposition] header.  A backslash and a double
    quote get a backslash before them, a carriage return becomes [%0D] and a
    line feed [%0A]; every other byte is written as it is. *)
Fixpoint escapeQuotes (s : string) : string :=
  match s with
  | EmptyString => EmptyString
  | String c rest =>
      if Ascii.eqb c "\"%char
      then String "\"%char (String "\"%char (escapeQuotes rest))
      else if Ascii.eqb c "034"%char
      then String "\"%char (String "034"%char (escapeQuotes rest))
      else if Ascii.eqb c "013"%char
      then String "%"%char (String "0"%char (String "D"%char (escapeQuotes rest)))
      else if Ascii.eqb c "010"%char
      then String "%"%char (String "0"%char (String "A"%char (escapeQuotes rest)))
      else String c (escapeQuotes rest)
  end.

(** The writer writes to a [bytes.Buffer], which takes every write: creating
    a part and closing the writer return no error.  A part records the field
    name and the file name as the header carries them. *)
Definition CreateFormField (fieldname : string) (w : Writer) : Writer * option error :=
  (CreatePart {| FormName := escapeQuotes fieldname; FileName := None;
                 ContentType := None; Content := [] |} w, None).

Definition CreateFormFile (fieldname filename : string) (w : Writer)
  : Writer * option error :=
  (CreatePart {| FormName := escapeQuotes fieldname;
                 FileName := Some (escapeQuotes filename);
                 ContentType := Some "application/octet-stream";
                 Content := [] |} w, None).

Definition Close (w : Writer) : option error := None.

(** Writing to the part returned by the last [Create...] call. *)
Definition Write (b : bytes) (w : Writer) : Writer :=
  match parts w with
  | [] => w
  | p :: ps =>
      {| Boundary := Boundary w;
         parts := {| FormName := FormName p; FileName := FileName p;
                     ContentType := ContentType p;
                     Content := (Content p ++ b)%list |} :: ps |}
  end.

(** [io.Copy] from a file to the part returned by the last [Create...] call. *)
Definition io_Copy (w : Writer) (file : os_File) : Writer * option error :=
  (Write (readable file) w, read_error file).

Definition FormDataContentType (w : Writer) : string :=
  "multipart/form-data; boundary=" ++ Boundary w.

(** The form carried by the buffer once the writer is closed: the parts in
    the order they were written. *)
Definition Form (w : Writer) : list Part := rev (parts w).

End multipart.

(** ** encoding/json *)

Inductive json : Type :=
| JString (s : string)
| JBool (b : bool)
| JStrings (l : list string)
| JObject (fields : list (string * json)).

(** A pointer field tagged [omitempty] is left out when nil. *)
Definition omitempty (key : string) (v : option json) : list (string * json) :=
  match v with
  | None => []
  | Some j => [(key, j)]
  end.

(** ** The machine the provider runs on *)

Record Env := {
  goos : GOOS;
  (** what [os.Lstat] and the walk find at a path *)
  disk : string -> node;
  (** the random boundary [multipart.NewWriter] picks *)
  boundary : string;
  (** the bytes [json.Encoder.Encode] writes for a value, newline included *)
  json_Encode : json -> bytes
}.

(** ** Terraform plugin framework: attribute values and diagnostics *)

Module types.

(** A [types.String], [types.Bool] or [types.Int64]: null, unknown or a
    known value. *)
Inductive Value (A : Type) : Type :=
| Null
| Unknown
| Known (a : A).
Arguments Null {A}.
Arguments Unknown {A}.

Definition String := Value string.
Definition Bool := Value bool.
Definition Int64 := Value Z.

Definition StringValue (s : string) : String := Known s.
Definition BoolValue (b : bool) : Bool := Known b.
Definition Int64Value (n : Z) : Int64 := Known n.

Definition IsNull {A} (v : Value A) : bool :=
  match v with Null => true | _ => false end.
Definition IsUnknown {A} (v : Value A) : bool :=
  match v with Unknown => true | _ => false end.

(** The zero value is returned for null and unknown. *)
Definition ValueString (v : String) : string :=
  match v with Known s => s | _ => EmptyString end.
Definition ValueBool (v : Bool) : bool :=
  match v with Known b => b | _ => false end.

(** A nil pointer for null, a pointer to the zero value for unknown. *)
Definition ValueStringPointer (v : String) : option string :=
  match v with
  | Null => None
  | Unknown => Some EmptyString
  | Known s => Some s
  end.

End types.

Module diag.

Inductive Severity := SeverityError | SeverityWarning.

Record Diagnostic := {
  severity : Severity;
  Summary : string;
  Detail : string
}.

Definition Diagnostics := list Diagnostic.

Definition NewErrorDiagnostic (summary detail : string) : Diagnostic :=
  {| severity := SeverityError; Summary := summary; Detail := detail |}.

Definition is_error (d : Diagnostic) : bool :=
  match severity d with SeverityError => true | SeverityWarning => false end.

Definition HasError (ds : Diagnostics) : bool := existsb is_error ds.

(** [Diagnostic.Equal]: the same severity, summary and detail. *)
Definition Equal (d other : Diagnostic) : bool :=
  match severity d, severity other with
  | SeverityError, SeverityError | SeverityWarning, SeverityWarning =>
      String.eqb (Summary d) (Summary other) && String.eqb (Detail d) (Detail other)
  | _, _ => false
  end.

(** [Diagnostics.Contains] *)
Definition Contains (ds : Diagnostics) (d : Diagnostic) : bool :=
  existsb (fun known => Equal known d) ds.

(** [Diagnostics.Append]: the diagnostics are added one by one, and one that
    the collection already contains is left out. *)
Fixpoint Append (ds more : Diagnostics) : Diagnostics :=
  match more with
  | [] => ds
  | d :: rest => Append (if Contains ds d then ds else (ds ++ [d])%list) rest
  end.

Definition AddError (summary detail : string) (ds : Diagnostics) : Diagnostics :=
  Append ds [NewErrorDiagnostic summary detail].

End diag.

(** ** The generated API client *)

Module api.

Record DeployFunctionResponse := {
  dfr_CreatedAt : option Z;
  dfr_Id : string;
  dfr_Name : string;
  dfr_Slug : string;
  dfr_Status : string;
  dfr_UpdatedAt : option Z;
  dfr_VerifyJwt : option bool;
  dfr_Version : Z
}.

Record FunctionSlugResponse := {
  fsr_CreatedAt : Z;
  fsr_Id : string;
  fsr_Name : string;
  fsr_Slug : string;
  fsr_Status : string;
  fsr_UpdatedAt : Z;
  fsr_VerifyJwt : option bool;
  fsr_Version : Z
}.

Record V1DeployAFunctionParams := { Slug : option string }.

(** The typed responses; [StatusCode] is what the [StatusCode()] method
    returns and the [JSON...] field is nil unless the client parsed a body
    of that status. *)
Record V1DeployAFunctionResponse := {
  deploy_Body : bytes;
  deploy_StatusCode : Z;
  JSON201 : option DeployFunctionResponse
}.

Record V1GetAFunctionResponse := {
  get_Body : bytes;
  get_StatusCode : Z;
  JSON200 : option FunctionSlugResponse
}.

Record V1DeleteAFunctionResponse := {
  delete_Body : bytes;
  delete_StatusCode : Z
}.

Record V1GetAFunctionBodyResponse := {
  body_Body : bytes;
  body_StatusCode : Z
}.

(** One constructor for each client method the provider calls, with the
    arguments of the call. *)
Inductive Request : Type :=
| V1DeployAFunctionWithBodyWithResponse
    (projectRef : string) (params : V1DeployAFunctionParams)
    (contentType : string) (body : list multipart.Part)
| V1GetAFunctionWithResponse (projectRef functionSlug : string)
| V1DeleteAFunctionWithResponse (projectRef functionSlug : string)
| V1GetAFunctionBodyWithResponse (projectRef functionSlug : string).

(** What a method returns: the typed response, or the transport error. *)
Definition Reply (rq : Request) : Type :=
  match rq with
  | V1DeployAFunctionWithBodyWithResponse _ _ _ _ => V1DeployAFunctionResponse + error
  | V1GetAFunctionWithResponse _ _ => V1GetAFunctionResponse + error
  | V1DeleteAFunctionWithResponse _ _ => V1DeleteAFunctionResponse + error
  | V1GetAFunctionBodyWithResponse _ _ => V1GetAFunctionBodyResponse + error
  end%type.

Definition http_StatusNotFound : Z := 404.
Definition http_StatusOK : Z := 200.

End api.

(** ** Handler programs *)

Inductive Prog (A : Type) : Type :=
| Ret (a : A)
| Trace (msg : string) (k : Prog A)                       (* tflog.Trace *)
| Call (rq : api.Request) (k : api.Reply rq -> Prog A).   (* a client call *)
Arguments Ret {A} a.
Arguments Trace {A} msg k.
Arguments Call {A} rq k.

Fixpoint bind {A B} (p : Prog A) (f : A -> Prog B) : Prog B :=
  match p with
  | Ret a => f a
  | Trace msg k => Trace msg (bind k f)
  | Call rq k => Call rq (fun r => bind (k r) f)
  end.

Notation "x <- p ;; q" := (bind p (fun x => q))
  (at level 61, p at next level, right associativity).
Notation "' pat <- p ;; q" := (bind p (fun x => match x with pat => q end))
  (at level 61, pat pattern, p at next level, right associativity).

(** The remote API: its reply to a call may depend on the calls before. *)
Definition Remote := forall (history : list api.Request) (rq : api.Request), api.Reply rq.

Record Outcome (A : Type) := {
  value : A;
  requests : list api.Request;   (* the calls issued, in order *)
  tflog : list string
}.

Fixpoint run_from {A} (remote : Remote) (history : list api.Request)
         (log : list string) (p : Prog A) : Outcome A :=
  match p with
  | Ret a => {| value := a; requests := history; tflog := log |}
  | Trace msg k => run_from remote history (log ++ [msg])%list k
  | Call rq k => run_from remote (history ++ [rq])%list log (k (remote history rq))
  end.

Definition run {A} (remote : Remote) (p : Prog A) : Outcome A :=
  run_from remote [] [] p.

Module tfsdk.

(** A plan, state or configuration as [Get] decodes it into the model
    struct: the diagnostics of the decoding and the struct it fills. *)
Record Data (M : Type) := {
  Get_diags : diag.Diagnostics;
  Get_value : M
}.

End tfsdk.

Module resource.

Record CreateRequest (M : Type) := { create_Plan : tfsdk.Data M }.
Record ReadRequest (M : Type) := { read_State : tfsdk.Data M }.
Record UpdateRequest (M : Type) := {
  update_Plan : tfsdk.Data M;
  update_State : tfsdk.Data M
}.
Record DeleteRequest (M : Type) := { delete_State : tfsdk.Data M }.

(** The response a handler fills in.  [State] is [None] for a resource that
    is absent from the state; [State.Set] with a model struct that covers
    the schema stores the struct and reports nothing. *)
Record Response (M : Type) := {
  Diagnostics : diag.Diagnostics;
  State : option M
}.

Definition Append {M} (more : diag.Diagnostics) (resp : Response M) : Response M :=
  {| Diagnostics := diag.Append (Diagnostics resp) more; State := State resp |}.

Definition AddError {M} (summary detail : string) (resp : Response M) : Response M :=
  {| Diagnostics := diag.AddError summary detail (Diagnostics resp);
     State := State resp |}.

Definition State_Set {M} (data : M) (resp : Response M) : Response M :=
  {| Diagnostics := Diagnostics resp; State := Some data |}.

End resource.

(** ** regexp

    Patterns as syntax trees, matched by derivatives.  A pattern [^r$] of Go
    (no flags) matches a text when [r] matches the whole text; the character
    classes used here are ASCII, so matching byte by byte agrees with
    matching rune by rune. *)

Module regexp.

Inductive Regexp : Type :=
| NoMatch
| EmptyMatch
| CharClass (ranges : list (ascii * ascii))
| Concat (r1 r2 : Regexp)
| Alternate (r1 r2 : Regexp)
| Star (r : Regexp).

Definition in_range (c : ascii) (range : ascii * ascii) : bool :=
  (nat_of_ascii (fst range) <=? nat_of_ascii c)%nat
  && (nat_of_ascii c <=? nat_of_ascii (snd range))%nat.

Definition in_class (ranges : list (ascii * ascii)) (c : ascii) : bool :=
  existsb (in_range c) ranges.

Fixpoint nullable (r : Regexp) : bool :=
  match r with
  | NoMatch => false
  | EmptyMatch => true
  | CharClass _ => false
  | Concat r1 r2 => nullable r1 && nullable r2
  | Alternate r1 r2 => nullable r1 || nullable r2
  | Star _ => true
  end.

Fixpoint derive (c : ascii) (r : Regexp) : Regexp :=
  match r with
  | NoMatch => NoMatch
  | EmptyMatch => NoMatch
  | CharClass ranges => if in_class ranges c then EmptyMatch else NoMatch
  | Concat r1 r2 =>
      if nullable r1
      then Alternate (Concat (derive c r1) r2) (derive c r2)
      else Concat (derive c r1) r2
  | Alternate r1 r2 => Alternate (derive c r1) (derive c r2)
  | Star r1 => Concat (derive c r1) (Star r1)
  end.

(** [MatchString] of the pattern [^r$] *)
Fixpoint MatchString (r : Regexp) (s : string) : bool :=
  match s with
  | EmptyString => nullable r
  | String c rest => MatchString (derive c r) rest
  end.

(** Every byte of a text satisfies a test. *)
Fixpoint all_chars (p : ascii -> bool) (s : string) : bool :=
  match s with
  | EmptyString => true
  | String c rest => p c && all_chars p rest
  end.

End regexp.

(** ** Resource schemas and what the framework does with them *)

Module schema.

Import types.

(** [stringvalidator.RegexMatches] *)
Inductive StringValidator : Type :=
| RegexMatches (re : regexp.Regexp) (message : string).

Record StringAttribute := {
  s_Required : bool;
  s_Optional : bool;
  s_Computed : bool;
  s_RequiresReplace : bool;
  s_UseStateForUnknown : bool;
  s_Validators : list StringValidator
}.

Record BoolAttribute := {
  b_Optional : bool;
  b_Computed : bool;
  b_Default : option bool   (* booldefault.StaticBool *)
}.

Record Int64Attribute := { i_Computed : bool }.

(** A validator looks at known values only. *)
Definition ValidateString (v : StringValidator) (attr : string) (config : types.String)
  : diag.Diagnostics :=
  match v, config with
  | RegexMatches re message, Known s =>
      if regexp.MatchString re s then []
      else [diag.NewErrorDiagnostic "Invalid Attribute Value Match"
              ("Attribute " ++ attr ++ " " ++ message ++ ", got: " ++ s)]
  | _, _ => []
  end.

(** An attribute that is computed and not optional is read-only: a
    configuration must leave it null. *)
Definition read_only {A} (computed optional : bool) (attr : string) (config : Value A)
  : diag.Diagnostics :=
  if computed && negb optional && negb (IsNull config)
  then [diag.NewErrorDiagnostic "Invalid Configuration for Read-Only Attribute"
          ("Cannot set value for the attribute " ++ attr
             ++ " as the provider has marked it as read-only.")]
  else [].

(** Validation of one string attribute of a configuration: a required
    attribute must be set, a read-only attribute must not, and each
    validator must accept the value. *)
Definition validate_string (a : StringAttribute) (attr : string) (config : types.String)
  : diag.Diagnostics :=
  ((if s_Required a && IsNull config
    then [diag.NewErrorDiagnostic "Missing required argument"
            ("The argument " ++ attr ++ " is required, but no definition was found.")]
    else [])
   ++ read_only (s_Computed a) (s_Optional a) attr config
   ++ flat_map (fun v => ValidateString v attr config) (s_Validators a))%list.

(** Validation of a boolean and of an integer attribute, which here are
    never required and have no validators. *)
Definition validate_bool (a : BoolAttribute) (attr : string) (config : types.Bool)
  : diag.Diagnostics :=
  read_only (b_Computed a) (b_Optional a) attr config.

Definition validate_int64 (a : Int64Attribute) (attr : string) (config : types.Int64)
  : diag.Diagnostics :=
  read_only (i_Computed a) false attr config.

(** The planned value of an attribute.  A value set in the configuration is
    planned as it is.  Where the configuration leaves the attribute null, the
    default of the schema is planned if there is one; otherwise a computed
    attribute is planned unknown, unless it keeps the value of the prior
    state ([UseStateForUnknown]). *)
Definition plan_value {A} (computed useState : bool) (default : option A)
           (config : Value A) (prior : option (Value A)) : Value A :=
  match config with
  | Null =>
      match default with
      | Some d => Known d
      | None =>
          if computed then
            match prior with
            | Some (Known v) => if useState then Known v else Unknown
            | _ => Unknown
            end
          else Null
      end
  | _ => config
  end.

Definition plan_string (a : StringAttribute) :=
  plan_value (s_Computed a) (s_UseStateForUnknown a) (@None string).
Definition plan_bool (a : BoolAttribute) :=
  plan_value (b_Computed a) false (b_Default a).
Definition plan_int64 (a : Int64Attribute) :=
  plan_value (i_Computed a) false (@None Z).

End schema.

(** ** function_resource.go *)

Module provider.

Import types.

Record FunctionResourceModel := {
  ProjectRef : types.String;
  Slug : types.String;
  EntrypointPath : types.String;
  SourceDir : types.String;
  Name : types.String;
  VerifyJwt : types.Bool;
  ImportMapPath : types.String;
  Id : types.String;
  Status : types.String;
  Version : types.Int64;
  CreatedAt : types.Int64;
  UpdatedAt : types.Int64
}.

(** Assignments to single fields of the model. *)
Definition set_Id v (d : FunctionResourceModel) :=
  {| ProjectRef := ProjectRef d; Slug := Slug d; EntrypointPath := EntrypointPath d;
     SourceDir := SourceDir d; Name := Name d; VerifyJwt := VerifyJwt d;
     ImportMapPath := ImportMapPath d; Id := v; Status := Status d;
     Version := Version d; CreatedAt := CreatedAt d; UpdatedAt := UpdatedAt d |}.
Definition set_Slug v (d : FunctionResourceModel) :=
  {| ProjectRef := ProjectRef d; Slug := v; EntrypointPath := EntrypointPath d;
     SourceDir := SourceDir d; Name := Name d; VerifyJwt := VerifyJwt d;
     ImportMapPath := ImportMapPath d; Id := Id d; Status := Status d;
     Version := Version d; CreatedAt := CreatedAt d; UpdatedAt := UpdatedAt d |}.
Definition set_Name v (d : FunctionResourceModel) :=
  {| ProjectRef := ProjectRef d; Slug := Slug d; EntrypointPath := EntrypointPath d;
     SourceDir := SourceDir d; Name := v; VerifyJwt := VerifyJwt d;
     ImportMapPath := ImportMapPath d; Id := Id d; Status := Status d;
     Version := Version d; CreatedAt := CreatedAt d; UpdatedAt := UpdatedAt d |}.
Definition set_VerifyJwt v (d : FunctionResourceModel) :=
  {| ProjectRef := ProjectRef d; Slug := Slug d; EntrypointPath := EntrypointPath d;
     SourceDir := SourceDir d; Name := Name d; VerifyJwt := v;
     ImportMapPath := ImportMapPath d; Id := Id d; Status := Status d;
     Version := Version d; CreatedAt := CreatedAt d; UpdatedAt := UpdatedAt d |}.
Definition set_Status v (d : FunctionResourceModel) :=
  {| ProjectRef := ProjectRef d; Slug := Slug d; EntrypointPath := EntrypointPath d;
     SourceDir := SourceDir d; Name := Name d; VerifyJwt := VerifyJwt d;
     ImportMapPath := ImportMapPath d; Id := Id d; Status := v;
     Version := Version d; CreatedAt := CreatedAt d; UpdatedAt := UpdatedAt d |}.
Definition set_Version v (d : FunctionResourceModel) :=
  {| ProjectRef := ProjectRef d; Slug := Slug d; EntrypointPath := EntrypointPath d;
     SourceDir := SourceDir d; Name := Name d; VerifyJwt := VerifyJwt d;
     ImportMapPath := ImportMapPath d; Id := Id d; Status := Status d;
     Version := v; CreatedAt := CreatedAt d; UpdatedAt := UpdatedAt d |}.
Definition set_CreatedAt v (d : FunctionResourceModel) :=
  {| ProjectRef := ProjectRef d; Slug := Slug d; EntrypointPath := EntrypointPath d;
     SourceDir := SourceDir d; Name := Name d; VerifyJwt := VerifyJwt d;
     ImportMapPath := ImportMapPath d; Id := Id d; Status := Status d;
     Version := Version d; CreatedAt := v; UpdatedAt := UpdatedAt d |}.
Definition set_UpdatedAt v (d : FunctionResourceModel) :=
  {| ProjectRef := ProjectRef d; Slug := Slug d; EntrypointPath := EntrypointPath d;
     SourceDir := SourceDir d; Name := Name d; VerifyJwt := VerifyJwt d;
     ImportMapPath := ImportMapPath d; Id := Id d; Status := Status d;
     Version := Version d; CreatedAt := CreatedAt d; UpdatedAt := v |}.

(** [FunctionDeployMetadata], with its json tags read by [Marshal]. *)
Record FunctionDeployMetadata := {
  md_EntrypointPath : string;
  md_ImportMapPath : option string;
  md_Name : option string;
  md_StaticPatterns : list string;
  md_VerifyJwt : option bool
}.

Definition Marshal (m : FunctionDeployMetadata) : json :=
  JObject
    ([("entrypoint_path", JString (md_EntrypointPath m))]
     ++ omitempty "import_map_path" (option_map JString (md_ImportMapPath m))
     ++ omitempty "name" (option_map JString (md_Name m))
     ++ match md_StaticPatterns m with
        | [] => []
        | l => [("static_patterns", JStrings l)]
        end
     ++ omitempty "verify_jwt" (option_map JBool (md_VerifyJwt m)))%list.

Definition set_md_Name v (m : FunctionDeployMetadata) :=
  {| md_EntrypointPath := md_EntrypointPath m; md_ImportMapPath := md_ImportMapPath m;
     md_Name := v; md_StaticPatterns := md_StaticPatterns m;
     md_VerifyJwt := md_VerifyJwt m |}.
Definition set_md_VerifyJwt v (m : FunctionDeployMetadata) :=
  {| md_EntrypointPath := md_EntrypointPath m; md_ImportMapPath := md_ImportMapPath m;
     md_Name := md_Name m; md_StaticPatterns := md_StaticPatterns m;
     md_VerifyJwt := v |}.
Definition set_md_ImportMapPath v (m : FunctionDeployMetadata) :=
  {| md_EntrypointPath := md_EntrypointPath m; md_ImportMapPath := v;
     md_Name := md_Name m; md_StaticPatterns := md_StaticPatterns m;
     md_VerifyJwt := md_VerifyJwt m |}.

Definition Model_Response := resource.Response FunctionResourceModel.

Section handlers.
Variable env : Env.

(** The metadata struct of [deployFunction] (lines 248-262). *)
Definition deployMetadata (data : FunctionResourceModel) : FunctionDeployMetadata :=
  let metadata :=
    {| md_EntrypointPath := filepath.ToSlash (goos env) (ValueString (EntrypointPath data));
       md_ImportMapPath := None; md_Name := None; md_StaticPatterns := [];
       md_VerifyJwt := None |} in
  let metadata :=
    if negb (IsNull (Name data)) && negb (IsUnknown (Name data))
    then set_md_Name (Some (ValueString (Name data))) metadata
    else metadata in
  let metadata :=
    if negb (IsNull (VerifyJwt data)) && negb (IsUnknown (VerifyJwt data))
    then set_md_VerifyJwt (Some (ValueBool (VerifyJwt data))) metadata
    else metadata in
  let metadata :=
    if negb (IsNull (ImportMapPath data)) && negb (IsUnknown (ImportMapPath data))
    then set_md_ImportMapPath
           (Some (filepath.ToSlash (goos env) (ValueString (ImportMapPath data)))) metadata
    else metadata in
  metadata.

(** The function literal passed to [filepath.Walk] (lines 277-312). *)
Definition walkFn (writer : multipart.Writer) (path : list string) (info : node)
           (err : option error) : multipart.Writer * option error :=
  match err with
  | Some err => (writer, Some err)
  | None =>
      if IsDir info then (writer, None)
      else
        match filepath.Rel (goos env) path with
        | (_, Some err) => (writer, Some ("failed to get relative path: " ++ err))
        | (relPath, None) =>
            let relPath := filepath.ToSlash (goos env) relPath in
            match multipart.CreateFormFile "file" relPath writer with
            | (writer, Some err) =>
                (writer, Some ("failed to create form file: " ++ err))
            | (writer, None) =>
                match os_Open info with
                | inr err => (writer, Some ("failed to open file: " ++ err))
                | inl file =>
                    match multipart.io_Copy writer file with
                    | (writer, Some err) =>
                        (writer, Some ("failed to copy file content: " ++ err))
                    | (writer, None) => (writer, None)
                    end
                end
            end
        end
  end.

(** The response mapping of [deployFunction] (lines 346-358). *)
Definition deployResult (result : api.DeployFunctionResponse)
           (data : FunctionResourceModel) : FunctionResourceModel :=
  let data := set_Id (StringValue (api.dfr_Id result)) data in
  let data := set_Slug (StringValue (api.dfr_Slug result)) data in
  let data := set_Name (StringValue (api.dfr_Name result)) data in
  let data := set_Status (StringValue (api.dfr_Status result)) data in
  let data := set_Version (Int64Value (api.dfr_Version result)) data in
  let data :=
    match api.dfr_CreatedAt result with
    | Some t => set_CreatedAt (Int64Value t) data
    | None => data
    end in
  let data :=
    match api.dfr_UpdatedAt result with
    | Some t => set_UpdatedAt (Int64Value t) data
    | None => data
    end in
  data.

Definition client_error (msg : string) : diag.Diagnostics :=
  [diag.NewErrorDiagnostic "Client Error" msg].

(** What [deployFunction] makes of the reply of the client
    (lines 335-360). *)
Definition deployReply (data : FunctionResourceModel)
           (reply : api.V1DeployAFunctionResponse + error)
  : diag.Diagnostics * FunctionResourceModel :=
  match reply with
  | inr err =>
      (client_error ("Unable to deploy function, got error: " ++ err), data)
  | inl httpResp =>
      match api.JSON201 httpResp with
      | None =>
          (client_error
             ("Unable to deploy function, got status "
                ++ fmt_d (api.deploy_StatusCode httpResp) ++ ": "
                ++ string_of_bytes (api.deploy_Body httpResp)), data)
      | Some result => ([], deployResult result data)
      end
  end.

(** [json.NewEncoder(w).Encode(v)] for the metadata struct, which has no
    value the encoder refuses. *)
Definition Encode (v : json) (w : multipart.Writer) : multipart.Writer * option error :=
  (multipart.Write (json_Encode env v) w, None).

(** [deployFunction].  It returns its diagnostics together with the model
    it was handed by pointer. *)
Definition deployFunction (data : FunctionResourceModel)
  : Prog (diag.Diagnostics * FunctionResourceModel) :=
  let writer := multipart.NewWriter (boundary env) in
  let metadata := deployMetadata data in
  match multipart.CreateFormField "metadata" writer with
  | (_, Some err) =>
      Ret (client_error ("Unable to create metadata field, got error: " ++ err), data)
  | (writer, None) =>
  match Encode (Marshal metadata) writer with
  | (_, Some err) =>
      Ret (client_error ("Unable to encode metadata, got error: " ++ err), data)
  | (writer, None) =>
  let sourceDir := ValueString (SourceDir data) in
  match filepath.Walk walkFn writer (disk env sourceDir) with
  | (_, Some err) =>
      Ret (client_error ("Unable to read source directory, got error: " ++ err), data)
  | (writer, None) =>
  match multipart.Close writer with
  | Some err =>
      Ret (client_error ("Unable to close multipart writer, got error: " ++ err), data)
  | None =>
      let params := {| api.Slug := ValueStringPointer (Slug data) |} in
      Call (api.V1DeployAFunctionWithBodyWithResponse
              (ValueString (ProjectRef data)) params
              (multipart.FormDataContentType writer) (multipart.Form writer))
           (fun reply => Ret (deployReply data reply))
  end end end end.

(** What [readFunction] makes of the reply of the client
    (lines 369-396). *)
Definition readReply (data : FunctionResourceModel)
           (reply : api.V1GetAFunctionResponse + error)
  : diag.Diagnostics * FunctionResourceModel :=
  match reply with
  | inr err =>
      (client_error ("Unable to read function, got error: " ++ err), data)
  | inl httpResp =>
      if Z.eqb (api.get_StatusCode httpResp) api.http_StatusNotFound
      then ([], data)
      else
        match api.JSON200 httpResp with
        | None =>
            (client_error
               ("Unable to read function, got status "
                  ++ fmt_d (api.get_StatusCode httpResp) ++ ": "
                  ++ string_of_bytes (api.get_Body httpResp)), data)
        | Some result =>
            let data := set_Id (StringValue (api.fsr_Id result)) data in
            let data := set_Slug (StringValue (api.fsr_Slug result)) data in
            let data := set_Name (StringValue (api.fsr_Name result)) data in
            let data := set_Status (StringValue (api.fsr_Status result)) data in
            let data := set_Version (Int64Value (api.fsr_Version result)) data in
            let data := set_CreatedAt (Int64Value (api.fsr_CreatedAt result)) data in
            let data := set_UpdatedAt (Int64Value (api.fsr_UpdatedAt result)) data in
            let data :=
              match api.fsr_VerifyJwt result with
              | Some b => set_VerifyJwt (BoolValue b) data
              | None => data
              end in
            ([], data)
        end
  end.

(** [readFunction] *)
Definition readFunction (data : FunctionResourceModel)
  : Prog (diag.Diagnostics * FunctionResourceModel) :=
  Call (api.V1GetAFunctionWithResponse
          (ValueString (ProjectRef data)) (ValueString (Slug data)))
       (fun reply => Ret (readReply data reply)).

(** What [deleteFunction] makes of the reply of the client
    (lines 405-419). *)
Definition deleteReply (data : FunctionResourceModel)
           (reply : api.V1DeleteAFunctionResponse + error)
  : diag.Diagnostics * FunctionResourceModel :=
  match reply with
  | inr err =>
      (client_error ("Unable to delete function, got error: " ++ err), data)
  | inl httpResp =>
      if Z.eqb (api.delete_StatusCode httpResp) api.http_StatusNotFound
      then ([], data)
      else if negb (Z.eqb (api.delete_StatusCode httpResp) api.http_StatusOK)
      then
        (client_error
           ("Unable to delete function, got status "
              ++ fmt_d (api.delete_StatusCode httpResp) ++ ": "
              ++ string_of_bytes (api.delete_Body httpResp)), data)
      else ([], data)
  end.

(** [deleteFunction] *)
Definition deleteFunction (data : FunctionResourceModel)
  : Prog (diag.Diagnostics * FunctionResourceModel) :=
  Call (api.V1DeleteAFunctionWithResponse
          (ValueString (ProjectRef data)) (ValueString (Slug data)))
       (fun reply => Ret (deleteReply data reply)).

(** [FunctionResource.Create] *)
Definition Create (req : resource.CreateRequest FunctionResourceModel)
           (resp : Model_Response) : Prog Model_Response :=
  let data := tfsdk.Get_value (resource.create_Plan req) in
  let resp := resource.Append (tfsdk.Get_diags (resource.create_Plan req)) resp in
  if diag.HasError (resource.Diagnostics resp) then Ret resp
  else
    '(diags, data) <- deployFunction data ;;
    let resp := resource.Append diags resp in
    if diag.HasError (resource.Diagnostics resp) then Ret resp
    else Trace "created edge function resource" (Ret (resource.State_Set data resp)).

(** [FunctionResource.Read] *)
Definition Read (req : resource.ReadRequest FunctionResourceModel)
           (resp : Model_Response) : Prog Model_Response :=
  let data := tfsdk.Get_value (resource.read_State req) in
  let resp := resource.Append (tfsdk.Get_diags (resource.read_State req)) resp in
  if diag.HasError (resource.Diagnostics resp) then Ret resp
  else
    '(diags, data) <- readFunction data ;;
    let resp := resource.Append diags resp in
    if diag.HasError (resource.Diagnostics resp) then Ret resp
    else Trace "read function" (Ret (resource.State_Set data resp)).

(** [FunctionResource.Update] *)
Definition Update (req : resource.UpdateRequest FunctionResourceModel)
           (resp : Model_Response) : Prog Model_Response :=
  let data := tfsdk.Get_value (resource.update_Plan req) in
  let resp := resource.Append (tfsdk.Get_diags (resource.update_Plan req)) resp in
  if diag.HasError (resource.Diagnostics resp) then Ret resp
  else
    '(diags, data) <- deployFunction data ;;
    let resp := resource.Append diags resp in
    if diag.HasError (resource.Diagnostics resp) then Ret resp
    else Trace "updated function" (Ret (resource.State_Set data resp)).

(** [FunctionResource.Delete] *)
Definition Delete (req : resource.DeleteRequest FunctionResourceModel)
           (resp : Model_Response) : Prog Model_Response :=
  let data := tfsdk.Get_value (resource.delete_State req) in
  let resp := resource.Append (tfsdk.Get_diags (resource.delete_State req)) resp in
  if diag.HasError (resource.Diagnostics resp) then Ret resp
  else
    '(diags, data) <- deleteFunction data ;;
    let resp := resource.Append diags resp in
    if diag.HasError (resource.Diagnostics resp) then Ret resp
    else Trace "deleted function" (Ret resp).

End handlers.

(** [FunctionResource.Schema] *)
Record ResourceSchema := {
  project_ref : schema.StringAttribute;
  slug : schema.StringAttribute;
  entrypoint_path : schema.StringAttribute;
  source_dir : schema.StringAttribute;
  name : schema.StringAttribute;
  verify_jwt : schema.BoolAttribute;
  import_map_path : schema.StringAttribute;
  id : schema.StringAttribute;
  status : schema.StringAttribute;
  version : schema.Int64Attribute;
  created_at : schema.Int64Attribute;
  updated_at : schema.Int64Attribute
}.

(** The pattern [^[A-Za-z][A-Za-z0-9_-]*$] of the slug validator. *)
Definition slug_pattern : regexp.Regexp :=
  regexp.Concat
    (regexp.CharClass [("A", "Z"); ("a", "z")]%char)
    (regexp.Star
       (regexp.CharClass [("A", "Z"); ("a", "z"); ("0", "9"); ("_", "_"); ("-", "-")]%char)).

Definition computed_string : schema.StringAttribute :=
  {| schema.s_Required := false; schema.s_Optional := false; schema.s_Computed := true;
     schema.s_RequiresReplace := false; schema.s_UseStateForUnknown := false;
     schema.s_Validators := [] |}.

Definition required_string : schema.StringAttribute :=
  {| schema.s_Required := true; schema.s_Optional := false; schema.s_Computed := false;
     schema.s_RequiresReplace := false; schema.s_UseStateForUnknown := false;
     schema.s_Validators := [] |}.

Definition Schema : ResourceSchema :=
  {| project_ref :=
       {| schema.s_Required := true; schema.s_Optional := false;
          schema.s_Computed := false; schema.s_RequiresReplace := true;
          schema.s_UseStateForUnknown := false; schema.s_Validators := [] |};
     slug :=
       {| schema.s_Required := true; schema.s_Optional := false;
          schema.s_Computed := false; schema.s_RequiresReplace := true;
          schema.s_UseStateForUnknown := false;
          schema.s_Validators :=
            [schema.RegexMatches slug_pattern
               "must start with a letter and contain only letters, numbers, underscores, and hyphens"] |};
     entrypoint_path := required_string;
     source_dir := required_string;
     name :=
       {| schema.s_Required := false; schema.s_Optional := true;
          schema.s_Computed := true; schema.s_RequiresReplace := false;
          schema.s_UseStateForUnknown := true; schema.s_Validators := [] |};
     verify_jwt :=
       {| schema.b_Optional := true; schema.b_Computed := true;
          schema.b_Default := Some true |};
     import_map_path :=
       {| schema.s_Required := false; schema.s_Optional := true;
          schema.s_Computed := false; schema.s_RequiresReplace := false;
          schema.s_UseStateForUnknown := false; schema.s_Validators := [] |};
     id :=
       {| schema.s_Required := false; schema.s_Optional := false;
          schema.s_Computed := true; schema.s_RequiresReplace := false;
          schema.s_UseStateForUnknown := true; schema.s_Validators := [] |};
     status := computed_string;
     version := {| schema.i_Computed := true |};
     created_at := {| schema.i_Computed := true |};
     updated_at := {| schema.i_Computed := true |} |}.

(** Validation of a configuration of the resource against a schema. *)
Definition ValidateConfig (sch : ResourceSchema) (config : FunctionResourceModel)
  : diag.Diagnostics :=
  (schema.validate_string (project_ref sch) "project_ref" (ProjectRef config)
   ++ schema.validate_string (slug sch) "slug" (Slug config)
   ++ schema.validate_string (entrypoint_path sch) "entrypoint_path" (EntrypointPath config)
   ++ schema.validate_string (source_dir sch) "source_dir" (SourceDir config)
   ++ schema.validate_string (name sch) "name" (Name config)
   ++ schema.validate_string (import_map_path sch) "import_map_path" (ImportMapPath config)
   ++ schema.validate_string (id sch) "id" (Id config)
   ++ schema.validate_string (status sch) "status" (Status config)
   ++ schema.validate_bool (verify_jwt sch) "verify_jwt" (VerifyJwt config)
   ++ schema.validate_int64 (version sch) "version" (Version config)
   ++ schema.validate_int64 (created_at sch) "created_at" (CreatedAt config)
   ++ schema.validate_int64 (updated_at sch) "updated_at" (UpdatedAt config))%list.

(** The plan the framework derives from a configuration and the prior
    state ([None] when the resource is to be created). *)
Definition PlanResourceChange (sch : ResourceSchema) (config : FunctionResourceModel)
           (prior : option FunctionResourceModel) : FunctionResourceModel :=
  {| ProjectRef := schema.plan_string (project_ref sch) (ProjectRef config) (option_map ProjectRef prior);
     Slug := schema.plan_string (slug sch) (Slug config) (option_map Slug prior);
     EntrypointPath := schema.plan_string (entrypoint_path sch) (EntrypointPath config) (option_map EntrypointPath prior);
     SourceDir := schema.plan_string (source_dir sch) (SourceDir config) (option_map SourceDir prior);
     Name := schema.plan_string (name sch) (Name config) (option_map Name prior);
     VerifyJwt := schema.plan_bool (verify_jwt sch) (VerifyJwt config) (option_map VerifyJwt prior);
     ImportMapPath := schema.plan_string (import_map_path sch) (ImportMapPath config) (option_map ImportMapPath prior);
     Id := schema.plan_string (id sch) (Id config) (option_map Id prior);
     Status := schema.plan_string (status sch) (Status config) (option_map Status prior);
     Version := schema.plan_int64 (version sch) (Version config) (option_map Version prior);
     CreatedAt := schema.plan_int64 (created_at sch) (CreatedAt config) (option_map CreatedAt prior);
     UpdatedAt := schema.plan_int64 (updated_at sch) (UpdatedAt config) (option_map UpdatedAt prior) |}.

(** Applying a configuration: it is validated, and only a configuration
    that passes is planned and handed to [Create] (no prior state) or to
    [Update] (a prior state), each with a response that carries no
    diagnostics yet and the prior state.  This is the apply of a resource
    that is to be created or changed in place; that Terraform calls nothing
    when the plan changes nothing, and deletes and creates anew when the
    project reference or the slug changes, is not part of it. *)
Definition Apply (env : Env) (config : FunctionResourceModel)
           (prior : option FunctionResourceModel) : Prog Model_Response :=
  let diags := ValidateConfig Schema config in
  if diag.HasError diags
  then Ret {| resource.Diagnostics := diags; resource.State := prior |}
  else
    let plan := {| tfsdk.Get_diags := [];
                   tfsdk.Get_value := PlanResourceChange Schema config prior |} in
    let resp := {| resource.Diagnostics := diags; resource.State := prior |} in
    match prior with
    | None => Create env {| resource.create_Plan := plan |} resp
    | Some st =>
        Update env {| resource.update_Plan := plan;
                      resource.update_State := {| tfsdk.Get_diags := [];
                                                  tfsdk.Get_value := st |} |} resp
    end.

(** ** function_body_data_source.go *)

Record FunctionBodyDataSourceModel := {
  ds_ProjectRef : types.String;
  ds_Slug : types.String;
  ds_Body : types.String
}.

Definition set_ds_Body v (d : FunctionBodyDataSourceModel) :=
  {| ds_ProjectRef := ds_ProjectRef d; ds_Slug := ds_Slug d; ds_Body := v |}.

Definition datasource_ReadRequest := tfsdk.Data FunctionBodyDataSourceModel.
Definition datasource_ReadResponse := resource.Response FunctionBodyDataSourceModel.

(** What [FunctionBodyDataSource.Read] makes of the reply of the client
    (lines 92-109). *)
Definition FunctionBodyDataSource_reply (data : FunctionBodyDataSourceModel)
           (resp : datasource_ReadResponse)
           (reply : api.V1GetAFunctionBodyResponse + error)
  : Prog datasource_ReadResponse :=
  match reply with
  | inr err =>
      Ret (resource.AddError "Client Error"
             ("Unable to read function body, got error: " ++ err) resp)
  | inl httpResp =>
      if negb (Z.eqb (api.body_StatusCode httpResp) 200)
      then
        Ret (resource.AddError "Client Error"
               ("Unable to read function body, got status "
                  ++ fmt_d (api.body_StatusCode httpResp) ++ ": "
                  ++ string_of_bytes (api.body_Body httpResp)) resp)
      else
        let data := set_ds_Body
                      (StringValue (string_of_bytes (api.body_Body httpResp)))
                      data in
        Trace "read function body data source"
              (Ret (resource.State_Set data resp))
  end.

(** [FunctionBodyDataSource.Read]; the request is its [Config]. *)
Definition FunctionBodyDataSource_Read (req : datasource_ReadRequest)
           (resp : datasource_ReadResponse) : Prog datasource_ReadResponse :=
  let data := tfsdk.Get_value req in
  let resp := resource.Append (tfsdk.Get_diags req) resp in
  if diag.HasError (resource.Diagnostics resp) then Ret resp
  else
    Call (api.V1GetAFunctionBodyWithResponse
            (ValueString (ds_ProjectRef data)) (ValueString (ds_Slug data)))
         (FunctionBodyDataSource_reply data resp).

End provider.

(** ** What a deploy request is expected to carry *)

Module expected.

Import types provider.

(** The readable files at and below a node, each with the names that lead to
    it from the node, in the order of the walk. *)
Fixpoint files_under (path : list string) (n : node) : list (list string * bytes) :=
  match n with
  | File (inl {| readable := content; read_error := None |}) => [(path, content)]
  | Dir entries =>
      (fix each (l : list (string * node)) : list (list string * bytes) :=
         match l with
         | [] => []
         | (name, child) :: l' => (files_under (path ++ [name]) child ++ each l')%list
         end) entries
  | _ => []
  end.

(** A tree that can be walked and read to the end. *)
Fixpoint walkable (n : node) : bool :=
  match n with
  | File (inl {| readable := _; read_error := None |}) => true
  | Dir entries =>
      (fix all (l : list (string * node)) : bool :=
         match l with
         | [] => true
         | (_, child) :: l' => walkable child && all l'
         end) entries
  | _ => false
  end.

(** A relative path written with forward slashes. *)
Definition slash_path (os : GOOS) (names : list string) : string :=
  match names with
  | [] => "."
  | _ => strings_Join (map (filepath.ToSlash os) names) "/"
  end.

(** The part of a file: its path written with forward slashes, as the
    writer writes a file name, and its bytes. *)
Definition file_part (os : GOOS) (f : list string * bytes) : multipart.Part :=
  {| multipart.FormName := "file";
     multipart.FileName := Some (multipart.escapeQuotes (slash_path os (fst f)));
     multipart.ContentType := Some "application/octet-stream";
     multipart.Content := snd f |}.

(** The members of the metadata object: the entrypoint always, the other
    three when the model holds a known value for them. *)
Definition metadata_members (os : GOOS) (data : FunctionResourceModel)
  : list (string * json) :=
  ([("entrypoint_path", JString (filepath.ToSlash os (ValueString (EntrypointPath data))))]
   ++ match ImportMapPath data with
      | Known s => [("import_map_path", JString (filepath.ToSlash os s))]
      | _ => []
      end
   ++ match Name data with
      | Known s => [("name", JString s)]
      | _ => []
      end
   ++ match VerifyJwt data with
      | Known b => [("verify_jwt", JBool b)]
      | _ => []
      end)%list.

Definition metadata_part (env : Env) (data : FunctionResourceModel) : multipart.Part :=
  {| multipart.FormName := "metadata";
     multipart.FileName := None;
     multipart.ContentType := None;
     multipart.Content := json_Encode env (JObject (metadata_members (goos env) data)) |}.

Definition form (env : Env) (data : FunctionResourceModel) : list multipart.Part :=
  metadata_part env data
    :: map (file_part (goos env))
         (files_under [] (disk env (ValueString (SourceDir data)))).

(** The part of a file with its path as the file name, byte for byte, and
    the call that carries such parts. *)
Definition stated_part (os : GOOS) (f : list string * bytes) : multipart.Part :=
  {| multipart.FormName := "file";
     multipart.FileName := Some (slash_path os (fst f));
     multipart.ContentType := Some "application/octet-stream";
     multipart.Content := snd f |}.

Definition stated_request (env : Env) (data : FunctionResourceModel) : api.Request :=
  api.V1DeployAFunctionWithBodyWithResponse
    (ValueString (ProjectRef data))
    {| api.Slug := ValueStringPointer (Slug data) |}
    ("multipart/form-data; boundary=" ++ boundary env)
    (metadata_part env data
       :: map (stated_part (goos env))
            (files_under [] (disk env (ValueString (SourceDir data))))).

(** The one call a deploy makes. *)
Definition request (env : Env) (data : FunctionResourceModel) : api.Request :=
  api.V1DeployAFunctionWithBodyWithResponse
    (ValueString (ProjectRef data))
    {| api.Slug := ValueStringPointer (Slug data) |}
    ("multipart/form-data; boundary=" ++ boundary env)
    (form env data).

End expected.

(** ** What counts as a failed call *)

Module failed.

(** The deploy call failed: the transport erred, or the response carries no
    parsed 201 body. *)
Definition deploy (reply : api.V1DeployAFunctionResponse + error) : bool :=
  match reply with
  | inr _ => true
  | inl httpResp =>
      match api.JSON201 httpResp with
      | None => true
      | Some _ => false
      end
  end.

(** The call for the body failed: the transport erred, or the status is
    not 200. *)
Definition body (reply : api.V1GetAFunctionBodyResponse + error) : bool :=
  match reply with
  | inr _ => true
  | inl httpResp => negb (Z.eqb (api.body_StatusCode httpResp) 200)
  end.

End failed.

(** ** A sample project

    The function of the acceptance test, with a second source file in a
    subdirectory, on a machine and against remote APIs that are fixed here. *)

Module sample.

Import types provider.

Definition index_ts : bytes :=
  list_byte_of_string "Deno.serve(async (req) => { return new Response('Hello World!') })".

Definition util_ts : bytes :=
  list_byte_of_string "export const greeting = 'Hello';".

Definition source : node :=
  Dir [("index.ts", File (inl (whole index_ts)));
       ("lib", Dir [("util.ts", File (inl (whole util_ts)))])].

(** A stand-in for the JSON encoder. *)
Fixpoint render (j : json) : string :=
  match j with
  | JString s => "'" ++ s ++ "'"
  | JBool b => if b then "true" else "false"
  | JStrings l => "[" ++ strings_Join l "," ++ "]"
  | JObject fields =>
      "{"
        ++ (fix members (l : list (string * json)) : string :=
              match l with
              | [] => EmptyString
              | (k, v) :: l' => k ++ ":" ++ render v ++ ";" ++ members l'
              end) fields
        ++ "}"
  end.

Definition env : Env :=
  {| goos := unix;
     disk := fun path =>
               if String.eqb path "functions/hello-world" then source
               else NoEnt "lstat: no such file or directory";
     boundary := "0a1b2c3d";
     json_Encode := fun j => list_byte_of_string (render j ++ String.String "010"%char EmptyString) |}.

Definition config : FunctionResourceModel :=
  {| ProjectRef := Known "mayuaycdtijbctgqbycg";
     Slug := Known "hello-world";
     EntrypointPath := Known "index.ts";
     SourceDir := Known "functions/hello-world";
     Name := Null; VerifyJwt := Null; ImportMapPath := Null;
     Id := Null; Status := Null; Version := Null;
     CreatedAt := Null; UpdatedAt := Null |}.

(** The same configuration with a source directory that does not exist. *)
Definition config_nowhere : FunctionResourceModel :=
  {| ProjectRef := Known "mayuaycdtijbctgqbycg";
     Slug := Known "hello-world";
     EntrypointPath := Known "index.ts";
     SourceDir := Known "functions/nowhere";
     Name := Null; VerifyJwt := Null; ImportMapPath := Null;
     Id := Null; Status := Null; Version := Null;
     CreatedAt := Null; UpdatedAt := Null |}.

(** The same configuration with a slug that starts with a digit. *)
Definition config_bad_slug : FunctionResourceModel :=
  {| ProjectRef := Known "mayuaycdtijbctgqbycg";
     Slug := Known "1-hello";
     EntrypointPath := Known "index.ts";
     SourceDir := Known "functions/hello-world";
     Name := Null; VerifyJwt := Null; ImportMapPath := Null;
     Id := Null; Status := Null; Version := Null;
     CreatedAt := Null; UpdatedAt := Null |}.

Definition plan : tfsdk.Data FunctionResourceModel :=
  {| tfsdk.Get_diags := [];
     tfsdk.Get_value := PlanResourceChange Schema config None |}.

Definition plan_nowhere : tfsdk.Data FunctionResourceModel :=
  {| tfsdk.Get_diags := [];
     tfsdk.Get_value := PlanResourceChange Schema config_nowhere None |}.

Definition deployed : api.DeployFunctionResponse :=
  {| api.dfr_CreatedAt := Some 1704067200%Z;
     api.dfr_Id := "func-uuid-1234";
     api.dfr_Name := "hello-world";
     api.dfr_Slug := "hello-world";
     api.dfr_Status := "ACTIVE";
     api.dfr_UpdatedAt := None;
     api.dfr_VerifyJwt := None;
     api.dfr_Version := 1%Z |}.

Definition found : api.FunctionSlugResponse :=
  {| api.fsr_CreatedAt := 1704067200%Z;
     api.fsr_Id := "func-uuid-1234";
     api.fsr_Name := "hello-world";
     api.fsr_Slug := "hello-world";
     api.fsr_Status := "ACTIVE";
     api.fsr_UpdatedAt := 1704067300%Z;
     api.fsr_VerifyJwt := Some true;
     api.fsr_Version := 1%Z |}.

(** The state after the function has been deployed and read. *)
Definition state : FunctionResourceModel :=
  {| ProjectRef := Known "mayuaycdtijbctgqbycg";
     Slug := Known "hello-world";
     EntrypointPath := Known "index.ts";
     SourceDir := Known "functions/hello-world";
     Name := Known "hello-world"; VerifyJwt := Known true; ImportMapPath := Null;
     Id := Known "func-uuid-1234"; Status := Known "ACTIVE"; Version := Known 1%Z;
     CreatedAt := Known 1704067200%Z; UpdatedAt := Known 1704067300%Z |}.

Definition prior : tfsdk.Data FunctionResourceModel :=
  {| tfsdk.Get_diags := []; tfsdk.Get_value := state |}.

Definition fresh : Model_Response :=
  {| resource.Diagnostics := []; resource.State := None |}.

Definition current : Model_Response :=
  {| resource.Diagnostics := []; resource.State := Some state |}.

Definition body_config : datasource_ReadRequest :=
  {| tfsdk.Get_diags := [];
     tfsdk.Get_value := {| ds_ProjectRef := Known "mayuaycdtijbctgqbycg";
                           ds_Slug := Known "hello-world";
                           ds_Body := Null |} |}.

Definition body_fresh : datasource_ReadResponse :=
  {| resource.Diagnostics := []; resource.State := None |}.

(** An API that serves every call. *)
Definition remote_ok : Remote :=
  fun _ rq =>
    match rq return api.Reply rq with
    | api.V1DeployAFunctionWithBodyWithResponse _ _ _ _ =>
        inl {| api.deploy_Body := []; api.deploy_StatusCode := 201;
               api.JSON201 := Some deployed |}
    | api.V1GetAFunctionWithResponse _ _ =>
        inl {| api.get_Body := []; api.get_StatusCode := 200;
               api.JSON200 := Some found |}
    | api.V1DeleteAFunctionWithResponse _ _ =>
        inl {| api.delete_Body := []; api.delete_StatusCode := 200 |}
    | api.V1GetAFunctionBodyWithResponse _ _ =>
        inl {| api.body_Body := index_ts; api.body_StatusCode := 200 |}
    end.

(** An API that knows no function. *)
Definition remote_404 : Remote :=
  fun _ rq =>
    match rq return api.Reply rq with
    | api.V1DeployAFunctionWithBodyWithResponse _ _ _ _ =>
        inl {| api.deploy_Body := []; api.deploy_StatusCode := 404;
               api.JSON201 := None |}
    | api.V1GetAFunctionWithResponse _ _ =>
        inl {| api.get_Body := []; api.get_StatusCode := 404;
               api.JSON200 := None |}
    | api.V1DeleteAFunctionWithResponse _ _ =>
        inl {| api.delete_Body := []; api.delete_StatusCode := 404 |}
    | api.V1GetAFunctionBodyWithResponse _ _ =>
        inl {| api.body_Body := []; api.body_StatusCode := 404 |}
    end.

End sample.

(** ** Configure

    [FunctionResource.Configure] and [FunctionBodyDataSource.Configure].  The
    provider data is nil until the provider is configured, then the API
    client; [OtherData] stands for a value of any other type, with the type
    name that [%T] prints. *)

Module configure.

Inductive ProviderData (C : Type) : Type :=
| NoData
| ClientData (c : C)
| OtherData (typeName : string).
Arguments NoData {C}.
Arguments OtherData {C} typeName.

(** The type assertion of [req.ProviderData] to the client *)
Definition as_client {C} (data : ProviderData C) : option C :=
  match data with
  | ClientData c => Some c
  | _ => None
  end.

Definition is_nil {C} (data : ProviderData C) : bool :=
  match data with
  | NoData => true
  | _ => false
  end.

Definition typeName_of {C} (data : ProviderData C) : string :=
  match data with
  | NoData => "<nil>"
  | ClientData _ => "*api.ClientWithResponses"
  | OtherData t => t
  end.

(** The receiver: its [client] field, nil until set. *)
Record Receiver (C : Type) := { client : option C }.

(** [FunctionResource.Configure] *)
Definition FunctionResource_Configure {C} (r : Receiver C) (req : ProviderData C)
           (resp : diag.Diagnostics) : Receiver C * diag.Diagnostics :=
  if is_nil req then (r, resp)
  else
    match as_client req with
    | None =>
        (r, diag.AddError "Unexpected Resource Configure Type"
              ("Expected *http.Client, got: " ++ typeName_of req
                 ++ ". Please report this issue to the provider developers.") resp)
    | Some c => ({| client := Some c |}, resp)
    end.

(** [FunctionBodyDataSource.Configure] *)
Definition FunctionBodyDataSource_Configure {C} (d : Receiver C) (req : ProviderData C)
           (resp : diag.Diagnostics) : Receiver C * diag.Diagnostics :=
  if is_nil req then (d, resp)
  else
    match as_client req with
    | None =>
        (d, diag.AddError "Unexpected Data Source Configure Type"
              ("Expected *api.ClientWithResponses, got: " ++ typeName_of req
                 ++ ". Please report this issue to the provider developers.") resp)
    | Some c => ({| client := Some c |}, resp)
    end.

(** [Configure] called once for each of a series of provider data, each call
    with the receiver and the diagnostics the call before left. *)
Fixpoint Configure_each {C}
         (Configure : Receiver C -> ProviderData C -> diag.Diagnostics
                      -> Receiver C * diag.Diagnostics)
         (r : Receiver C) (reqs : list (ProviderData C)) (resp : diag.Diagnostics)
  : Receiver C * diag.Diagnostics :=
  match reqs with
  | [] => (r, resp)
  | req :: rest =>
      let (r', resp') := Configure r req resp in
      Configure_each Configure r' rest resp'
  end.

(** The client of the last provider data that is a client, [fallback] if
    there is none. *)
Fixpoint last_client {C} (fallback : option C) (reqs : list (ProviderData C)) : option C :=
  match reqs with
  | [] => fallback
  | ClientData c :: rest => last_client (Some c) rest
  | _ :: rest => last_client fallback rest
  end.

Definition is_other {C} (data : ProviderData C) : bool :=
  match data with
  | OtherData _ => true
  | _ => false
  end.

End configure.

(** ** What a walk of the source directory comes to *)

Module walked.

(** The error of the first entry, in the order of the walk, that cannot be
    taken into the form: an entry that [os.Lstat] or the listing of a
    directory fails on gives that error, a file that cannot be opened or
    read to its end gives the error wrapped by the walk function. *)
Fixpoint first_error (n : node) : option error :=
  match n with
  | NoEnt e => Some e
  | File (inr e) => Some ("failed to open file: " ++ e)
  | File (inl file) =>
      match read_error file with
      | Some e => Some ("failed to copy file content: " ++ e)
      | None => None
      end
  | DirErr e => Some e
  | Dir entries =>
      (fix first (l : list (string * node)) : option error :=
         match l with
         | [] => None
         | (_, child) :: l' =>
             match first_error child with
             | Some e => Some e
             | None => first l'
             end
         end) entries
  end.

(** A tree of directories only. *)
Fixpoint only_dirs (n : node) : bool :=
  match n with
  | Dir entries =>
      (fix all (l : list (string * node)) : bool :=
         match l with
         | [] => true
         | (_, child) :: l' => only_dirs child && all l'
         end) entries
  | _ => false
  end.

(** A byte does not occur in a text. *)
Definition free_of (c : ascii) (s : string) : bool :=
  regexp.all_chars (fun x => negb (Ascii.eqb x c)) s.

(** A text that the writer of the form writes as it is: no backslash, double
    quote, carriage return or line feed in it. *)
Definition unescaped (s : string) : bool :=
  free_of "\"%char s && free_of "034"%char s
  && free_of "013"%char s && free_of "010"%char s.

(** A name as a directory listing gives it, on one line: no slash in it, on
    Windows no backslash, and neither carriage return nor line feed. *)
Definition plain_name (os : GOOS) (name : string) : bool :=
  free_of "/"%char name && free_of (filepath.Separator os) name
  && free_of "013"%char name && free_of "010"%char name.

Fixpoint distinct (names : list string) : bool :=
  match names with
  | [] => true
  | n :: rest => negb (existsb (String.eqb n) rest) && distinct rest
  end.

(** Every directory of the tree lists plain names, each once. *)
Fixpoint well_named (os : GOOS) (n : node) : bool :=
  match n with
  | Dir entries =>
      forallb (plain_name os) (map fst entries)
      && distinct (map fst entries)
      && (fix all (l : list (string * node)) : bool :=
            match l with
            | [] => true
            | (_, child) :: l' => well_named os child && all l'
            end) entries
  | _ => true
  end.

(** A text cut at its slashes. *)
Fixpoint split_slash (s : string) : list string :=
  match s with
  | EmptyString => [EmptyString]
  | String c rest =>
      if Ascii.eqb c "/"%char then EmptyString :: split_slash rest
      else
        match split_slash rest with
        | [] => [String c EmptyString]
        | first :: others => String c first :: others
        end
  end.

End walked.

(** ** Models without unknown values *)

Module known.

Import provider.

Definition settled {A} (v : types.Value A) : bool := negb (types.IsUnknown v).

(** No field of the model is unknown. *)
Definition model (m : FunctionResourceModel) : bool :=
  settled (ProjectRef m) && settled (Slug m) && settled (EntrypointPath m)
  && settled (SourceDir m) && settled (Name m) && settled (VerifyJwt m)
  && settled (ImportMapPath m) && settled (Id m) && settled (Status m)
  && settled (Version m) && settled (CreatedAt m) && settled (UpdatedAt m).

(** No field that comes from the configuration is unknown. *)
Definition inputs (m : FunctionResourceModel) : bool :=
  settled (ProjectRef m) && settled (EntrypointPath m) && settled (SourceDir m)
  && settled (VerifyJwt m) && settled (ImportMapPath m).

End known.

(** ** Further sample projects *)

Module cases.

Import types provider.

(** A source directory whose second file cannot be opened and whose third
    entry has vanished. *)
Definition broken : node :=
  Dir [("a.ts", File (inl (whole sample.util_ts)));
       ("b.ts", File (inr "open b.ts: permission denied"));
       ("c.ts", NoEnt "lstat c.ts: no such file or directory")].

(** A source directory with a file whose name holds a line feed. *)
Definition two_lines : string :=
  String.String "a"%char (String.String "010"%char "b.ts").

Definition awkward : node :=
  Dir [(two_lines, File (inl (whole sample.util_ts)))].

(** A source directory that holds directories only. *)
Definition hollow : node :=
  Dir [("assets", Dir []); ("lib", Dir [("vendor", Dir [])])].

Definition env_with (os : GOOS) (tree : node) : Env :=
  {| goos := os;
     disk := fun _ => tree;
     boundary := boundary sample.env;
     json_Encode := json_Encode sample.env |}.

(** The sample configuration as written on Windows. *)
Definition config_windows : FunctionResourceModel :=
  {| ProjectRef := Known "mayuaycdtijbctgqbycg";
     Slug := Known "hello-world";
     EntrypointPath := Known "src\index.ts";
     SourceDir := Known "functions\hello-world";
     Name := Null; VerifyJwt := Known false; ImportMapPath := Known "src\deno.json";
     Id := Null; Status := Null; Version := Null;
     CreatedAt := Null; UpdatedAt := Null |}.

(** An API that is down. *)
Definition remote_500 : Remote :=
  fun _ rq =>
    match rq return api.Reply rq with
    | api.V1DeployAFunctionWithBodyWithResponse _ _ _ _ =>
        inl {| api.deploy_Body := []; api.deploy_StatusCode := 500;
               api.JSON201 := None |}
    | api.V1GetAFunctionWithResponse _ _ =>
        inl {| api.get_Body := []; api.get_StatusCode := 500;
               api.JSON200 := None |}
    | api.V1DeleteAFunctionWithResponse _ _ =>
        inl {| api.delete_Body := []; api.delete_StatusCode := 500 |}
    | api.V1GetAFunctionBodyWithResponse _ _ =>
        inl {| api.body_Body := []; api.body_StatusCode := 500 |}
    end.

End cases.

(** * Properties *)

Import provider.

(** ** Paths *)

Lemma ReplaceAll_app (a b : string) (old new : ascii) :
  strings_ReplaceAll (a ++ b) old new
  = strings_ReplaceAll a old new ++ strings_ReplaceAll b old new.
Proof.
  induction a as [|c a IH]; simpl; [reflexivity | now rewrite IH].
Qed.

Lemma ReplaceAll_Join (names : list string) (old new : ascii) :
  strings_ReplaceAll (strings_Join names (String old EmptyString)) old new
  = strings_Join (map (fun s => strings_ReplaceAll s old new) names)
      (String new EmptyString).
Proof.
  induction names as [|s names IH]; [reflexivity|].
  destruct names as [|s' names]; [reflexivity|].
  change (strings_Join (s :: s' :: names) (String old EmptyString))
    with (s ++ String old EmptyString ++ strings_Join (s' :: names) (String old EmptyString)).
  rewrite !ReplaceAll_app, IH. simpl. now rewrite Ascii.eqb_refl.
Qed.

Lemma ToSlash_unix (s : string) : filepath.ToSlash unix s = s.
Proof. reflexivity. Qed.

(** The file name given to a form file is the relative path written with
    forward slashes. *)
Lemma ToSlash_Rel (os : GOOS) (names : list string) :
  filepath.ToSlash os (fst (filepath.Rel os names)) = expected.slash_path os names
  /\ snd (filepath.Rel os names) = None.
Proof.
  destruct names as [|n names]; [now destruct os|].
  unfold filepath.Rel, expected.slash_path. split; [|reflexivity].
  cbn [fst]. destruct os.
  - rewrite ToSlash_unix. f_equal. symmetry. apply map_id.
  - unfold filepath.ToSlash. simpl Ascii.eqb. cbv iota.
    apply ReplaceAll_Join.
Qed.

(** ** The walk *)

Section walk_facts.
Variable env : Env.

(** What the walk function does at an entry that is not a directory. *)
Lemma walkFn_File (w : multipart.Writer) (path : list string) (f : os_File + error) :
  walkFn env w path (File f) None
  = let created :=
      {| multipart.Boundary := multipart.Boundary w;
         multipart.parts := expected.file_part (goos env) (path, []) :: multipart.parts w |} in
    match f with
    | inr err => (created, Some ("failed to open file: " ++ err))
    | inl file =>
        ({| multipart.Boundary := multipart.Boundary w;
            multipart.parts := expected.file_part (goos env) (path, readable file)
                                 :: multipart.parts w |},
         match read_error file with
         | Some err => Some ("failed to copy file content: " ++ err)
         | None => None
         end)
    end.
Proof.
  unfold walkFn. cbn [IsDir os_Open].
  destruct (ToSlash_Rel (goos env) path) as [Hname Hnil].
  destruct (filepath.Rel (goos env) path) as [relPath err]. cbn in Hname, Hnil.
  subst err. rewrite Hname.
  destruct f as [[content [err|]]|err]; reflexivity.
Qed.

(** A walk that ends without an error has written one part for every file
    below the node, in the order of the walk, after what was written
    before. *)
Lemma walk_writes (n : node) :
  forall w path w',
    filepath.walk (walkFn env) w path n = (w', None) ->
    multipart.Boundary w' = multipart.Boundary w
    /\ multipart.parts w'
       = (rev (map (expected.file_part (goos env)) (expected.files_under path n))
            ++ multipart.parts w)%list
    /\ expected.walkable n = true.
Proof.
  induction n as [e|f|e|entries IH] using node_tree_ind; intros w path w' H;
    cbn -[walkFn] in H.
  - cbn in H. discriminate.
  - rewrite walkFn_File in H.
    destruct f as [[content [err|]]|err]; cbn in H; try discriminate.
    injection H as <-. cbn. auto.
  - cbn in H. discriminate.
  - cbn [walkFn IsDir] in H. cbn [expected.files_under expected.walkable].
    revert w w' H.
    induction IH as [|[name child] entries Hchild _ IHentries]; intros w w' H.
    + injection H as <-. auto.
    + cbn in Hchild.
      destruct (filepath.walk (walkFn env) w (path ++ [name])%list child)
        as [w2 [err|]] eqn:E; [discriminate|].
      apply Hchild in E as (Eb & Ep & Ew).
      apply IHentries in H as (Eb' & Ep' & Ew').
      rewrite Ew, Ew', Eb', Eb, Ep', Ep.
      rewrite map_app, rev_app_distr, app_assoc. auto.
Qed.

(** A tree that can be walked is walked without an error. *)
Lemma walk_walkable (n : node) :
  forall w path,
    expected.walkable n = true ->
    exists w', filepath.walk (walkFn env) w path n = (w', None).
Proof.
  induction n as [e|f|e|entries IH] using node_tree_ind; intros w path H;
    cbn [expected.walkable] in H; try discriminate.
  - destruct f as [[content [err|]]|err]; try discriminate.
    cbn -[walkFn]. rewrite walkFn_File. cbn. eauto.
  - cbn -[walkFn]. cbn [walkFn IsDir].
    revert w H.
    induction IH as [|[name child] entries Hchild _ IHentries]; intros w H.
    + eauto.
    + apply andb_true_iff in H as [Hc Hrest]. cbn in Hchild.
      destruct (Hchild w (path ++ [name])%list Hc) as [w2 E].
      rewrite E. apply IHentries, Hrest.
Qed.

End walk_facts.

(** ** The handlers as programs *)

Section handler_facts.
Variable env : Env.

Lemma Marshal_deployMetadata (data : FunctionResourceModel) :
  Marshal (deployMetadata env data)
  = JObject (expected.metadata_members (goos env) data).
Proof.
  unfold deployMetadata, expected.metadata_members, Marshal.
  destruct (Name data), (VerifyJwt data), (ImportMapPath data); reflexivity.
Qed.

(** [deployFunction] either gives up on the source directory, without a
    call, or issues the expected call and maps the reply. *)
Lemma deployFunction_cases (data : FunctionResourceModel) :
  (expected.walkable (disk env (types.ValueString (SourceDir data))) = true
   /\ deployFunction env data
      = Call (expected.request env data) (fun reply => Ret (deployReply data reply)))
  \/ (expected.walkable (disk env (types.ValueString (SourceDir data))) = false
      /\ exists err,
         deployFunction env data
         = Ret (client_error ("Unable to read source directory, got error: " ++ err),
                data)).
Proof.
  unfold deployFunction, filepath.Walk.
  cbn [multipart.CreateFormField Encode multipart.Close].
  set (w0 := multipart.Write _ _).
  destruct (filepath.walk (walkFn env) w0 [] _) as [w [err|]] eqn:E.
  - right. split; [|eauto].
    destruct (expected.walkable _) eqn:Hw; [|reflexivity].
    destruct (walk_walkable env _ w0 [] Hw) as [w' E'].
    rewrite E' in E. discriminate.
  - left. apply walk_writes in E as (Eb & Ep & Ew). split; [exact Ew|].
    unfold expected.request, expected.form, multipart.FormDataContentType,
      multipart.Form.
    rewrite Eb, Ep. subst w0. cbn. rewrite rev_app_distr, rev_involutive. cbn.
    rewrite Marshal_deployMetadata. reflexivity.
Qed.

End handler_facts.

(** ** Running the handlers *)

Ltac deploy_cases env data :=
  let Hw := fresh "Hwalk" in
  let err := fresh "err" in
  destruct (deployFunction_cases env data) as [[Hw ->] | [Hw [err ->]]].

Ltac split_if :=
  match goal with
  | |- context [if ?b then _ else _] => destruct b eqn:?
  end.

Ltac walk_through :=
  repeat first
    [ progress cbn
    | match goal with
      | |- context [let (_, _) := ?p in _] => destruct p eqn:?
      | |- context [match ?r with inl _ => _ | inr _ => _ end] => destruct r eqn:?
      end
    | split_if ].

Lemma Contains_HasError (ds : diag.Diagnostics) (d : diag.Diagnostic) :
  diag.Contains ds d = true -> diag.is_error d = true -> diag.HasError ds = true.
Proof.
  unfold diag.Contains, diag.HasError. intros Hin Herr.
  apply existsb_exists in Hin as (known & Hknown & Hequal).
  apply existsb_exists. exists known. split; [exact Hknown|].
  revert Hequal Herr. unfold diag.Equal, diag.is_error.
  destruct (diag.severity known), (diag.severity d); congruence.
Qed.

Lemma HasError_app (ds more : diag.Diagnostics) :
  diag.HasError (diag.Append ds more) = diag.HasError ds || diag.HasError more.
Proof.
  revert ds. induction more as [|d more IH]; intros ds; cbn.
  - now rewrite orb_false_r.
  - rewrite IH. destruct (diag.Contains ds d) eqn:Hin.
    + destruct (diag.is_error d) eqn:Herr; cbn; [|reflexivity].
      rewrite (Contains_HasError ds d Hin Herr). reflexivity.
    + unfold diag.HasError at 1. rewrite existsb_app. cbn.
      rewrite orb_false_r. fold (diag.HasError ds). symmetry. apply orb_assoc.
Qed.

Lemma HasError_client_error (ds : diag.Diagnostics) (msg : string) :
  diag.HasError (diag.Append ds (client_error msg)) = true.
Proof. rewrite HasError_app. cbn. apply orb_true_r. Qed.

Lemma HasError_AddError (ds : diag.Diagnostics) (summary detail : string) :
  diag.HasError (diag.AddError summary detail ds) = true.
Proof. unfold diag.AddError. rewrite HasError_app. cbn. apply orb_true_r. Qed.

Lemma Append_nil (ds : diag.Diagnostics) : diag.Append ds [] = ds.
Proof. reflexivity. Qed.

Arguments diag.HasError : simpl never.
Arguments diag.Append : simpl never.
Arguments diag.AddError : simpl never.
Arguments client_error : simpl never.

(** Every way [Create] and [Update] can go: the plan or the incoming
    response carries an error; the walk of the source directory fails; the
    transport errs; the response has no parsed 201 body; the deploy
    succeeds. *)
Ltac deploy_paths env plan remote :=
  unfold Create, Update, run; cbn -[deployFunction];
  match goal with
  | |- context [diag.HasError (diag.Append ?a ?b)] =>
      let Hpre := fresh "Hpre" in
      destruct (diag.HasError (diag.Append a b)) eqn:Hpre; cbn -[deployFunction];
      [ | let r := fresh "httpResp" in
          let e := fresh "err" in
          let Hreply := fresh "Hreply" in
          let Hjson := fresh "Hjson" in
          deploy_cases env (tfsdk.Get_value plan); cbn;
          [ destruct (remote [] (expected.request env (tfsdk.Get_value plan)))
              as [r|e] eqn:Hreply; cbn;
            [ destruct (api.JSON201 r) eqn:Hjson; cbn | ]
          | ];
          rewrite ?Append_nil, ?HasError_client_error, ?Hpre; cbn;
          rewrite ?Append_nil, ?HasError_client_error, ?Hpre ]
  end.

(** ** The slug pattern *)

Lemma MatchString_NoMatch (s : string) : regexp.MatchString regexp.NoMatch s = false.
Proof. induction s as [|c s IH]; [reflexivity | exact IH]. Qed.

Lemma MatchString_Concat_NoMatch (r : regexp.Regexp) (s : string) :
  regexp.MatchString (regexp.Concat regexp.NoMatch r) s = false.
Proof. induction s as [|c s IH]; [reflexivity | exact IH]. Qed.

Lemma MatchString_Alternate (r1 r2 : regexp.Regexp) (s : string) :
  regexp.MatchString (regexp.Alternate r1 r2) s
  = regexp.MatchString r1 s || regexp.MatchString r2 s.
Proof.
  revert r1 r2. induction s as [|c s IH]; intros r1 r2; [reflexivity | apply IH].
Qed.

Lemma MatchString_Star_class (ranges : list (ascii * ascii)) (s : string) :
  regexp.MatchString
    (regexp.Concat regexp.EmptyMatch (regexp.Star (regexp.CharClass ranges))) s
  = regexp.all_chars (regexp.in_class ranges) s.
Proof.
  induction s as [|c s IH]; [reflexivity|].
  cbn [regexp.MatchString regexp.derive regexp.nullable regexp.all_chars].
  rewrite MatchString_Alternate, MatchString_Concat_NoMatch. cbn [orb].
  destruct (regexp.in_class ranges c); cbn [andb].
  - exact IH.
  - apply MatchString_Concat_NoMatch.
Qed.

(** A text matches the slug pattern exactly when it starts with a letter and
    goes on with letters, digits, underscores and hyphens only. *)
Lemma slug_pattern_spec (s : string) :
  regexp.MatchString slug_pattern s
  = match s with
    | EmptyString => false
    | String.String c rest =>
        regexp.in_class [("A", "Z"); ("a", "z")]%char c
        && regexp.all_chars
             (regexp.in_class
                [("A", "Z"); ("a", "z"); ("0", "9"); ("_", "_"); ("-", "-")]%char) rest
    end.
Proof.
  destruct s as [|c rest]; [reflexivity|].
  unfold slug_pattern. cbn [regexp.MatchString regexp.derive regexp.nullable].
  destruct (regexp.in_class _ c); cbn [andb].
  - apply MatchString_Star_class.
  - apply MatchString_Concat_NoMatch.
Qed.

(** ** Validation and planning *)

Lemma HasError_app_list (ds more : diag.Diagnostics) :
  diag.HasError (ds ++ more)%list = diag.HasError ds || diag.HasError more.
Proof. apply existsb_app. Qed.

Lemma bad_slug_rejected (config : FunctionResourceModel) (s : string) :
  Slug config = types.Known s ->
  regexp.MatchString slug_pattern s = false ->
  diag.HasError (ValidateConfig Schema config) = true.
Proof.
  intros Hslug Hno. unfold ValidateConfig.
  rewrite HasError_app_list, HasError_app_list. rewrite Hslug.
  unfold schema.validate_string at 2. cbn -[regexp.MatchString slug_pattern].
  rewrite Hno. cbn. rewrite app_nil_r.
  change (existsb diag.is_error ?l) with (diag.HasError l).
  unfold diag.HasError at 2. cbn. now rewrite orb_true_r.
Qed.

Lemma validated_slug (config : FunctionResourceModel) :
  diag.HasError (ValidateConfig Schema config) = false ->
  Slug config <> types.Unknown ->
  exists s, Slug config = types.Known s /\ regexp.MatchString slug_pattern s = true.
Proof.
  intros Hok Hknown. unfold ValidateConfig in Hok.
  rewrite HasError_app_list, HasError_app_list in Hok.
  apply orb_false_iff in Hok as [_ Hok]. apply orb_false_iff in Hok as [Hok _].
  destruct (Slug config) as [| |s]; [discriminate Hok|congruence|].
  exists s. split; [reflexivity|].
  cbn -[regexp.MatchString slug_pattern] in Hok.
  destruct (regexp.MatchString slug_pattern s); [reflexivity|discriminate Hok].
Qed.

(** ** File names as the writer writes them *)

Lemma escapeQuotes_unescaped (s : string) :
  walked.unescaped s = true -> multipart.escapeQuotes s = s.
Proof.
  unfold walked.unescaped, walked.free_of.
  induction s as [|c s IH]; [reflexivity|]. cbn. intros H.
  rewrite !andb_true_iff, !negb_true_iff in H.
  destruct H as [[[[Hc1 Hs1] [Hc2 Hs2]] [Hc3 Hs3]] [Hc4 Hs4]].
  rewrite Hc1, Hc2, Hc3, Hc4. f_equal. apply IH.
  rewrite Hs1, Hs2, Hs3, Hs4. reflexivity.
Qed.

Section run_facts.
Variable env : Env.
Variable remote : Remote.

(** The only call [Create] and [Update] can issue. *)
Lemma deploy_requests
      (plan st : tfsdk.Data FunctionResourceModel) (resp : Model_Response)
      (rq : api.Request) :
  In rq (requests (run remote (Create env {| resource.create_Plan := plan |} resp)))
  \/ In rq (requests (run remote
              (Update env {| resource.update_Plan := plan;
                             resource.update_State := st |} resp))) ->
  rq = expected.request env (tfsdk.Get_value plan).
Proof.
  deploy_paths env plan remote; cbn; intuition congruence.
Qed.

(** [Create] and [Update] issue that call when nothing stops them. *)
Lemma deploy_sends
      (plan st : tfsdk.Data FunctionResourceModel) (resp : Model_Response) :
  diag.HasError (diag.Append (resource.Diagnostics resp) (tfsdk.Get_diags plan)) = false ->
  expected.walkable (disk env (types.ValueString (SourceDir (tfsdk.Get_value plan)))) = true ->
  requests (run remote (Create env {| resource.create_Plan := plan |} resp))
  = [expected.request env (tfsdk.Get_value plan)]
  /\ requests (run remote (Update env {| resource.update_Plan := plan;
                                         resource.update_State := st |} resp))
     = [expected.request env (tfsdk.Get_value plan)].
Proof.
  intros Hclean Hsource.
  deploy_paths env plan remote; try congruence; split; reflexivity.
Qed.

(** C1, as amended.  [Create] and [Update] alike send one request when the
    plan decodes without an error and the source directory can be walked and
    read, and no other request ever.  Its body is first the field [metadata]
    with the JSON encoding of the metadata object (the entrypoint always, the
    name, the JWT flag and the import map when the plan holds a known value
    for them), then one part [file] for every file below the source
    directory, directories being skipped, holding the bytes of the file.  The
    file name of the part is the path of the file relative to the source
    directory, written with forward slashes and then as the multipart writer
    writes a file name: a backslash before every backslash and double quote,
    [%0D] and [%0A] for a carriage return and a line feed.  It is the path
    itself when the path holds none of these four bytes. *)
Theorem deploy_request_form
        (plan st : tfsdk.Data FunctionResourceModel) (resp : Model_Response) :
  let data := tfsdk.Get_value plan in
  let tree := disk env (types.ValueString (SourceDir data)) in
  let created := requests (run remote (Create env {| resource.create_Plan := plan |} resp)) in
  let updated := requests (run remote (Update env {| resource.update_Plan := plan;
                                                     resource.update_State := st |} resp)) in
  let rq := api.V1DeployAFunctionWithBodyWithResponse
              (types.ValueString (ProjectRef data))
              {| api.Slug := types.ValueStringPointer (Slug data) |}
              ("multipart/form-data; boundary=" ++ boundary env)
              (expected.metadata_part env data
                 :: map (expected.file_part (goos env)) (expected.files_under [] tree)) in
  (forall sent, In sent created \/ In sent updated -> sent = rq)
  /\ (diag.HasError (diag.Append (resource.Diagnostics resp) (tfsdk.Get_diags plan)) = false ->
      expected.walkable tree = true ->
      created = [rq] /\ updated = [rq])
  /\ (forall path content,
         expected.file_part (goos env) (path, content)
         = {| multipart.FormName := "file";
              multipart.FileName :=
                Some (multipart.escapeQuotes (expected.slash_path (goos env) path));
              multipart.ContentType := Some "application/octet-stream";
              multipart.Content := content |})
  /\ (forall path,
         walked.unescaped (expected.slash_path (goos env) path) = true ->
         multipart.escapeQuotes (expected.slash_path (goos env) path)
         = expected.slash_path (goos env) path).
Proof.
  intros data tree created updated rq. subst data tree created updated rq.
  split; [|split; [|split]].
  - intros sent H. apply (deploy_requests plan st resp) in H. exact H.
  - intros Hclean Hsource. apply (deploy_sends plan st resp Hclean Hsource).
  - reflexivity.
  - intros path. apply escapeQuotes_unescaped.
Qed.

(** C2.  A 404 reply to [Read] or to [Delete] adds no error: with a state
    decoded without an error into a response that carries none, the
    diagnostics of either operation hold no error after a 404. *)
Theorem not_found_is_no_error
        (st : tfsdk.Data FunctionResourceModel) (resp : Model_Response)
        (got : api.V1GetAFunctionResponse) (deleted : api.V1DeleteAFunctionResponse) :
  diag.HasError (diag.Append (resource.Diagnostics resp) (tfsdk.Get_diags st)) = false ->
  remote [] (api.V1GetAFunctionWithResponse
               (types.ValueString (ProjectRef (tfsdk.Get_value st)))
               (types.ValueString (Slug (tfsdk.Get_value st)))) = inl got ->
  api.get_StatusCode got = 404%Z ->
  remote [] (api.V1DeleteAFunctionWithResponse
               (types.ValueString (ProjectRef (tfsdk.Get_value st)))
               (types.ValueString (Slug (tfsdk.Get_value st)))) = inl deleted ->
  api.delete_StatusCode deleted = 404%Z ->
  diag.HasError (resource.Diagnostics
                   (value (run remote (Read {| resource.read_State := st |} resp)))) = false
  /\ diag.HasError (resource.Diagnostics
                      (value (run remote (Delete {| resource.delete_State := st |} resp)))) = false.
Proof.
  intros Hclean Hget Hgot Hdelete Hdeleted.
  unfold Read, Delete, run. cbn. rewrite Hclean. cbn.
  rewrite Hget, Hdelete. cbn. rewrite Hgot, Hdeleted. cbn.
  rewrite !Append_nil, !Hclean. cbn. rewrite !Append_nil. auto.
Qed.

(** C8.  After a 404 reply [Read] stores the model it decoded from the
    prior state, field for field; the resource stays in the state. *)
Theorem read_not_found_keeps_state
        (st : tfsdk.Data FunctionResourceModel) (resp : Model_Response)
        (got : api.V1GetAFunctionResponse) :
  diag.HasError (diag.Append (resource.Diagnostics resp) (tfsdk.Get_diags st)) = false ->
  remote [] (api.V1GetAFunctionWithResponse
               (types.ValueString (ProjectRef (tfsdk.Get_value st)))
               (types.ValueString (Slug (tfsdk.Get_value st)))) = inl got ->
  api.get_StatusCode got = 404%Z ->
  resource.State (value (run remote (Read {| resource.read_State := st |} resp)))
  = Some (tfsdk.Get_value st).
Proof.
  intros Hclean Hget Hgot.
  unfold Read, run. cbn. rewrite Hclean. cbn.
  rewrite Hget. cbn. rewrite Hgot. cbn.
  rewrite Append_nil, Hclean. reflexivity.
Qed.

(** C4.  A read of the data source whose configuration decodes without an
    error issues exactly one call, the GET of the body; after a reply of
    status 200 the stored body is the bytes of the response read as a
    string, and the project reference and the slug are those of the
    configuration. *)
Theorem body_read_once
        (config : datasource_ReadRequest) (resp : datasource_ReadResponse) :
  diag.HasError (diag.Append (resource.Diagnostics resp) (tfsdk.Get_diags config)) = false ->
  let rq := api.V1GetAFunctionBodyWithResponse
              (types.ValueString (ds_ProjectRef (tfsdk.Get_value config)))
              (types.ValueString (ds_Slug (tfsdk.Get_value config))) in
  let out := run remote (FunctionBodyDataSource_Read config resp) in
  requests out = [rq]
  /\ forall httpResp : api.V1GetAFunctionBodyResponse,
      remote [] rq = inl httpResp ->
      api.body_StatusCode httpResp = 200%Z ->
      exists m,
        resource.State (value out) = Some m
        /\ ds_Body m = types.Known (string_of_bytes (api.body_Body httpResp))
        /\ list_byte_of_string (types.ValueString (ds_Body m)) = api.body_Body httpResp
        /\ ds_ProjectRef m = ds_ProjectRef (tfsdk.Get_value config)
        /\ ds_Slug m = ds_Slug (tfsdk.Get_value config).
Proof.
  intros Hclean rq out. subst rq out.
  unfold FunctionBodyDataSource_Read, run. cbn. rewrite Hclean. cbn. split.
  - unfold FunctionBodyDataSource_reply.
    destruct (remote [] _) as [r|e]; cbn; [|reflexivity].
    destruct (negb _); reflexivity.
  - intros httpResp Hreply Hstatus. rewrite Hreply.
    unfold FunctionBodyDataSource_reply. rewrite Hstatus. cbn.
    eexists. split; [reflexivity|]. cbn. repeat split.
    apply list_byte_of_string_of_list_byte.
Qed.

(** C7.  No handler issues more than one call, whatever the API replies. *)
Theorem at_most_one_request
        (plan st : tfsdk.Data FunctionResourceModel) (resp : Model_Response)
        (config : datasource_ReadRequest) (dresp : datasource_ReadResponse) :
  (length (requests (run remote
     (Create env {| resource.create_Plan := plan |} resp))) <= 1)%nat
  /\ (length (requests (run remote
     (Update env {| resource.update_Plan := plan; resource.update_State := st |} resp))) <= 1)%nat
  /\ (length (requests (run remote (Read {| resource.read_State := st |} resp))) <= 1)%nat
  /\ (length (requests (run remote (Delete {| resource.delete_State := st |} resp))) <= 1)%nat
  /\ (length (requests (run remote (FunctionBodyDataSource_Read config dresp))) <= 1)%nat.
Proof.
  repeat split.
  - deploy_paths env plan remote; cbn; lia.
  - deploy_paths env plan remote; cbn; lia.
  - unfold Read, run. walk_through; lia.
  - unfold Delete, run. walk_through; lia.
  - unfold FunctionBodyDataSource_Read, FunctionBodyDataSource_reply, run.
    walk_through; lia.
Qed.

(** C3.  [Update] does what [Create] does: from the same plan, against the
    same API and with the same diagnostics coming in, both issue the same
    calls and report the same diagnostics, and either both store the same
    model or both report an error and leave the state they were given. *)
Theorem update_as_create
        (plan st : tfsdk.Data FunctionResourceModel)
        (created updated : Model_Response) :
  resource.Diagnostics created = resource.Diagnostics updated ->
  let c := run remote (Create env {| resource.create_Plan := plan |} created) in
  let u := run remote (Update env {| resource.update_Plan := plan;
                                     resource.update_State := st |} updated) in
  requests c = requests u
  /\ resource.Diagnostics (value c) = resource.Diagnostics (value u)
  /\ ((exists m, resource.State (value c) = Some m
                 /\ resource.State (value u) = Some m)
      \/ (diag.HasError (resource.Diagnostics (value c)) = true
          /\ resource.State (value c) = resource.State created
          /\ resource.State (value u) = resource.State updated)).
Proof.
  intros Hsame c u. subst c u.
  destruct created as [ds sc], updated as [ds' su]. cbn in Hsame. subst ds'.
  deploy_paths env plan remote; rewrite ?Hpre, ?HasError_client_error; eauto 10.
Qed.

(** C5.  After a deploy that is answered with a parsed 201 body, the stored
    model has the id, slug, name, status and version of the response, the
    creation and update times of the response where it carries them and
    those of the plan where it does not, and the remaining fields of the
    plan. *)
Theorem deploy_success_state
        (plan st : tfsdk.Data FunctionResourceModel) (resp : Model_Response)
        (httpResp : api.V1DeployAFunctionResponse)
        (result : api.DeployFunctionResponse) :
  let data := tfsdk.Get_value plan in
  diag.HasError (diag.Append (resource.Diagnostics resp) (tfsdk.Get_diags plan)) = false ->
  expected.walkable (disk env (types.ValueString (SourceDir data))) = true ->
  remote [] (expected.request env data) = inl httpResp ->
  api.JSON201 httpResp = Some result ->
  exists m,
    resource.State (value (run remote
      (Create env {| resource.create_Plan := plan |} resp))) = Some m
    /\ resource.State (value (run remote
         (Update env {| resource.update_Plan := plan;
                        resource.update_State := st |} resp))) = Some m
    /\ Id m = types.Known (api.dfr_Id result)
    /\ Slug m = types.Known (api.dfr_Slug result)
    /\ Name m = types.Known (api.dfr_Name result)
    /\ Status m = types.Known (api.dfr_Status result)
    /\ Version m = types.Known (api.dfr_Version result)
    /\ CreatedAt m = match api.dfr_CreatedAt result with
                     | Some t => types.Known t
                     | None => CreatedAt data
                     end
    /\ UpdatedAt m = match api.dfr_UpdatedAt result with
                     | Some t => types.Known t
                     | None => UpdatedAt data
                     end
    /\ ProjectRef m = ProjectRef data
    /\ EntrypointPath m = EntrypointPath data
    /\ SourceDir m = SourceDir data
    /\ VerifyJwt m = VerifyJwt data
    /\ ImportMapPath m = ImportMapPath data.
Proof.
  intros data Hclean Hwalk Hreply Hjson. subst data.
  exists (deployResult result (tfsdk.Get_value plan)).
  split; [|split].
  - deploy_paths env plan remote; congruence.
  - deploy_paths env plan remote; congruence.
  - unfold deployResult.
    destruct (api.dfr_CreatedAt result), (api.dfr_UpdatedAt result); cbn; auto 15.
Qed.

(** C6, as amended.  [deployFunction] returns an error exactly when the
    source directory cannot be walked and read, in which case no call is
    issued, or the deploy call fails; a read of the data source whose
    configuration decodes without an error reports one exactly when the
    call for the body fails; and a [Create], an [Update] or a read of the
    data source that reports an error leaves the state as it was given. *)
Theorem errors_are_diagnostics
        (plan st : tfsdk.Data FunctionResourceModel) (resp : Model_Response)
        (config : datasource_ReadRequest) (dresp : datasource_ReadResponse) :
  diag.HasError (diag.Append (resource.Diagnostics dresp) (tfsdk.Get_diags config)) = false ->
  let data := tfsdk.Get_value plan in
  let tree := disk env (types.ValueString (SourceDir data)) in
  let deployed := run remote (deployFunction env data) in
  let c := run remote (Create env {| resource.create_Plan := plan |} resp) in
  let u := run remote (Update env {| resource.update_Plan := plan;
                                     resource.update_State := st |} resp) in
  let rq := api.V1GetAFunctionBodyWithResponse
              (types.ValueString (ds_ProjectRef (tfsdk.Get_value config)))
              (types.ValueString (ds_Slug (tfsdk.Get_value config))) in
  let r := run remote (FunctionBodyDataSource_Read config dresp) in
  (diag.HasError (fst (value deployed)) = true
   <-> expected.walkable tree = false
       \/ failed.deploy (remote [] (expected.request env data)) = true)
  /\ (expected.walkable tree = false -> requests deployed = [])
  /\ (diag.HasError (resource.Diagnostics (value r)) = true
      <-> failed.body (remote [] rq) = true)
  /\ (diag.HasError (resource.Diagnostics (value c)) = true ->
      resource.State (value c) = resource.State resp)
  /\ (diag.HasError (resource.Diagnostics (value u)) = true ->
      resource.State (value u) = resource.State resp)
  /\ (diag.HasError (resource.Diagnostics (value r)) = true ->
      resource.State (value r) = resource.State dresp).
Proof.
  intros Hclean data tree deployed c u rq r. subst data tree deployed c u rq r.
  split; [|split; [|split; [|split; [|split]]]].
  - unfold run. deploy_cases env (tfsdk.Get_value plan); cbn.
    + rewrite Hwalk. unfold deployReply, failed.deploy.
      destruct (remote [] _) as [httpResp|e]; cbn;
        [destruct (api.JSON201 httpResp); cbn|]; intuition congruence.
    + intuition.
  - intros Hwalk. unfold run.
    deploy_cases env (tfsdk.Get_value plan); [congruence|reflexivity].
  - unfold FunctionBodyDataSource_Read, FunctionBodyDataSource_reply, run. cbn.
    rewrite Hclean. cbn. unfold failed.body.
    destruct (remote [] _) as [httpResp|e]; cbn.
    + destruct (negb _); cbn; rewrite ?HasError_AddError, ?Hclean; intuition congruence.
    + rewrite HasError_AddError. intuition.
  - deploy_paths env plan remote; rewrite ?Hpre; congruence.
  - deploy_paths env plan remote; rewrite ?Hpre; congruence.
  - unfold FunctionBodyDataSource_Read, FunctionBodyDataSource_reply, run. cbn.
    rewrite Hclean. cbn.
    destruct (remote [] _) as [httpResp|e]; cbn; [|reflexivity].
    destruct (negb _); cbn; rewrite ?Hclean; congruence.
Qed.

(** The calls of [Apply] are those of the deploy of the plan. *)
Lemma Apply_requests (config : FunctionResourceModel)
      (prior : option FunctionResourceModel) (rq : api.Request) :
  In rq (requests (run remote (Apply env config prior))) ->
  diag.HasError (ValidateConfig Schema config) = false
  /\ rq = expected.request env (PlanResourceChange Schema config prior).
Proof.
  unfold Apply. destruct (diag.HasError (ValidateConfig Schema config)) eqn:Hv.
  - intros [].
  - intros H. split; [reflexivity|].
    set (plan := {| tfsdk.Get_diags := [];
                    tfsdk.Get_value := PlanResourceChange Schema config prior |}) in *.
    change (PlanResourceChange Schema config prior) with (tfsdk.Get_value plan).
    destruct prior as [st|].
    + eapply deploy_requests. right. exact H.
    + eapply (deploy_requests plan plan). left. exact H.
Qed.

(** C9.  A configuration that leaves [verify_jwt] out is planned with the
    value true, the default of the schema.  [Create] and [Update], handed
    that plan, each send the deploy request when the source directory can be
    walked and read, and the request carries the member [verify_jwt] with the
    value true in its metadata field; so does every deploy request that comes
    of applying the configuration. *)
Theorem verify_jwt_defaults_to_true
        (config : FunctionResourceModel) (prior : option FunctionResourceModel) :
  VerifyJwt config = types.Null ->
  let planned := PlanResourceChange Schema config prior in
  let plan := {| tfsdk.Get_diags := []; tfsdk.Get_value := planned |} in
  schema.b_Default (verify_jwt Schema) = Some true
  /\ VerifyJwt planned = types.Known true
  /\ (exists members files,
        let rq := api.V1DeployAFunctionWithBodyWithResponse
                    (types.ValueString (ProjectRef planned))
                    {| api.Slug := types.ValueStringPointer (Slug planned) |}
                    ("multipart/form-data; boundary=" ++ boundary env)
                    ({| multipart.FormName := "metadata";
                        multipart.FileName := None;
                        multipart.ContentType := None;
                        multipart.Content := json_Encode env (JObject members) |}
                       :: files) in
        In ("verify_jwt", JBool true) members
        /\ (forall sent, In sent (requests (run remote (Apply env config prior))) ->
                         sent = rq)
        /\ (forall st resp,
               diag.HasError (resource.Diagnostics resp) = false ->
               expected.walkable (disk env (types.ValueString (SourceDir planned))) = true ->
               requests (run remote (Create env {| resource.create_Plan := plan |} resp))
               = [rq]
               /\ requests (run remote (Update env {| resource.update_Plan := plan;
                                                      resource.update_State := st |} resp))
                  = [rq])).
Proof.
  intros Hnull planned plan.
  assert (Hplan : VerifyJwt planned = types.Known true).
  { subst planned. cbn. rewrite Hnull. reflexivity. }
  split; [reflexivity|]. split; [exact Hplan|].
  exists (expected.metadata_members (goos env) planned),
    (map (expected.file_part (goos env))
       (expected.files_under [] (disk env (types.ValueString (SourceDir planned))))).
  cbv zeta. split; [|split].
  - unfold expected.metadata_members. rewrite Hplan.
    apply in_or_app. right. apply in_or_app. right. apply in_or_app. right.
    left. reflexivity.
  - intros sent H. apply Apply_requests in H as [_ ->]. reflexivity.
  - intros st resp Hclean Hsource.
    apply (deploy_sends plan st resp); [|exact Hsource].
    cbn. rewrite Append_nil. exact Hclean.
Qed.

(** C10.  A configuration whose slug does not match the pattern fails
    validation and is applied without any call; and every deploy request
    that comes of applying a configuration has a slug that matches the
    pattern. *)
Theorem slug_is_validated
        (config : FunctionResourceModel) (prior : option FunctionResourceModel) :
  types.IsUnknown (Slug config) = false ->
  (forall s,
      Slug config = types.Known s ->
      regexp.MatchString slug_pattern s = false ->
      diag.HasError (ValidateConfig Schema config) = true
      /\ requests (run remote (Apply env config prior)) = [])
  /\ (forall rq,
         In rq (requests (run remote (Apply env config prior))) ->
         exists ref s contentType body,
           rq = api.V1DeployAFunctionWithBodyWithResponse
                  ref {| api.Slug := Some s |} contentType body
           /\ regexp.MatchString slug_pattern s = true).
Proof.
  intros Hknown. split.
  - intros s Hslug Hno.
    pose proof (bad_slug_rejected config Hslug Hno) as Hbad.
    split; [exact Hbad|]. unfold Apply. rewrite Hbad. reflexivity.
  - intros rq H. apply Apply_requests in H as [Hok ->].
    destruct (validated_slug config Hok) as (s & Hslug & Hmatch).
    { intros E. rewrite E in Hknown. discriminate Hknown. }
    unfold expected.request. cbn. rewrite Hslug. cbn. eauto 10.
Qed.

End run_facts.

(** ** The sample project, worked *)

Example slug_hello_world : regexp.MatchString slug_pattern "hello-world" = true.
Proof. reflexivity. Qed.

Example slug_with_digit_first : regexp.MatchString slug_pattern "1-hello" = false.
Proof. reflexivity. Qed.

Example slug_empty : regexp.MatchString slug_pattern EmptyString = false.
Proof. reflexivity. Qed.

Example slug_with_space : regexp.MatchString slug_pattern "hello world" = false.
Proof. reflexivity. Qed.

Example sample_files :
  expected.files_under [] sample.source
  = [(["index.ts"], sample.index_ts); (["lib"; "util.ts"], sample.util_ts)].
Proof. reflexivity. Qed.

Example sample_file_names :
  map multipart.FileName
      (expected.form sample.env (tfsdk.Get_value sample.plan))
  = [None; Some "index.ts"; Some "lib/util.ts"].
Proof. reflexivity. Qed.

Example windows_file_name :
  filepath.ToSlash windows (fst (filepath.Rel windows ["lib"; "util.ts"])) = "lib/util.ts".
Proof. reflexivity. Qed.

Example sample_create :
  let out := run sample.remote_ok
               (Create sample.env {| resource.create_Plan := sample.plan |} sample.fresh) in
  requests out = [expected.request sample.env (tfsdk.Get_value sample.plan)]
  /\ resource.Diagnostics (value out) = []
  /\ option_map Id (resource.State (value out)) = Some (types.Known "func-uuid-1234")
  /\ tflog out = ["created edge function resource"].
Proof. vm_compute. auto. Qed.

Example sample_create_nowhere :
  let out := run sample.remote_ok
               (Create sample.env {| resource.create_Plan := sample.plan_nowhere |}
                       sample.fresh) in
  requests out = []
  /\ map diag.Detail (resource.Diagnostics (value out))
     = ["Unable to read source directory, got error: lstat: no such file or directory"]
  /\ resource.State (value out) = None.
Proof. vm_compute. auto. Qed.

Example sample_deploy_refused :
  map diag.Detail
      (resource.Diagnostics
         (value (run sample.remote_404
                   (Create sample.env {| resource.create_Plan := sample.plan |}
                           sample.fresh))))
  = ["Unable to deploy function, got status 404: "].
Proof. vm_compute. reflexivity. Qed.

(** ** The theorems at the sample project *)

Lemma deploy_request_form_witness :
  let rq := api.V1DeployAFunctionWithBodyWithResponse
              "mayuaycdtijbctgqbycg" {| api.Slug := Some "hello-world" |}
              "multipart/form-data; boundary=0a1b2c3d"
              [expected.metadata_part sample.env (tfsdk.Get_value sample.plan);
               {| multipart.FormName := "file";
                  multipart.FileName := Some "index.ts";
                  multipart.ContentType := Some "application/octet-stream";
                  multipart.Content := sample.index_ts |};
               {| multipart.FormName := "file";
                  multipart.FileName := Some "lib/util.ts";
                  multipart.ContentType := Some "application/octet-stream";
                  multipart.Content := sample.util_ts |}] in
  requests (run sample.remote_ok
              (Create sample.env {| resource.create_Plan := sample.plan |} sample.fresh))
  = [rq]
  /\ requests (run sample.remote_ok
                 (Update sample.env {| resource.update_Plan := sample.plan;
                                       resource.update_State := sample.prior |}
                         sample.current))
     = [rq].
Proof.
  destruct (@deploy_request_form sample.env sample.remote_ok sample.plan sample.prior
              sample.fresh) as (_ & Hcreate & _).
  destruct (@deploy_request_form sample.env sample.remote_ok sample.plan sample.prior
              sample.current) as (_ & Hupdate & _).
  split.
  - destruct (Hcreate eq_refl eq_refl) as [H _]. exact H.
  - destruct (Hupdate eq_refl eq_refl) as [_ H]. exact H.
Defined.

(** C1, as stated, fails: a file whose name holds a line feed is sent under a
    file name that is not its path, the line feed being written [%0A]. *)
Lemma line_feed_in_file_name :
  ~ (forall sent,
        In sent (requests (run sample.remote_ok
                             (Create (cases.env_with unix cases.awkward)
                                     {| resource.create_Plan := sample.plan |}
                                     sample.fresh))) ->
        sent = expected.stated_request (cases.env_with unix cases.awkward)
                 (tfsdk.Get_value sample.plan)).
Proof.
  intros H.
  specialize (H (expected.request (cases.env_with unix cases.awkward)
                   (tfsdk.Get_value sample.plan)) (or_introl eq_refl)).
  apply (f_equal (fun rq =>
                    match rq with
                    | api.V1DeployAFunctionWithBodyWithResponse _ _ _ body =>
                        map multipart.FileName body
                    | _ => []
                    end)) in H.
  vm_compute in H. discriminate H.
Qed.

Lemma not_found_is_no_error_witness :
  diag.HasError
    (resource.Diagnostics
       (value (run sample.remote_404
                 (Read {| resource.read_State := sample.prior |} sample.current)))) = false
  /\ diag.HasError
       (resource.Diagnostics
          (value (run sample.remote_404
                    (Delete {| resource.delete_State := sample.prior |} sample.current))))
     = false.
Proof.
  apply (@not_found_is_no_error sample.remote_404 sample.prior sample.current
           {| api.get_Body := []; api.get_StatusCode := 404; api.JSON200 := None |}
           {| api.delete_Body := []; api.delete_StatusCode := 404 |});
    reflexivity.
Defined.

Lemma update_as_create_witness :
  let c := run sample.remote_ok
             (Create sample.env {| resource.create_Plan := sample.plan |} sample.fresh) in
  let u := run sample.remote_ok
             (Update sample.env {| resource.update_Plan := sample.plan;
                                   resource.update_State := sample.prior |}
                     sample.current) in
  requests c = requests u
  /\ resource.Diagnostics (value c) = resource.Diagnostics (value u)
  /\ ((exists m, resource.State (value c) = Some m
                 /\ resource.State (value u) = Some m)
      \/ (diag.HasError (resource.Diagnostics (value c)) = true
          /\ resource.State (value c) = resource.State sample.fresh
          /\ resource.State (value u) = resource.State sample.current)).
Proof.
  apply (@update_as_create sample.env sample.remote_ok sample.plan sample.prior
           sample.fresh sample.current).
  reflexivity.
Defined.

Lemma body_read_once_witness :
  let rq := api.V1GetAFunctionBodyWithResponse "mayuaycdtijbctgqbycg" "hello-world" in
  let out := run sample.remote_ok
               (FunctionBodyDataSource_Read sample.body_config sample.body_fresh) in
  requests out = [rq]
  /\ exists m,
      resource.State (value out) = Some m
      /\ ds_Body m = types.Known (string_of_bytes sample.index_ts)
      /\ list_byte_of_string (types.ValueString (ds_Body m)) = sample.index_ts
      /\ ds_ProjectRef m = types.Known "mayuaycdtijbctgqbycg"
      /\ ds_Slug m = types.Known "hello-world".
Proof.
  destruct (@body_read_once sample.remote_ok sample.body_config sample.body_fresh)
    as [Hone Hbody]; [reflexivity|].
  split; [exact Hone|].
  apply (Hbody {| api.body_Body := sample.index_ts; api.body_StatusCode := 200 |});
    reflexivity.
Defined.

Lemma deploy_success_state_witness :
  exists m,
    resource.State
      (value (run sample.remote_ok
                (Create sample.env {| resource.create_Plan := sample.plan |}
                        sample.fresh))) = Some m
    /\ Id m = types.Known "func-uuid-1234"
    /\ Version m = types.Known 1%Z
    /\ CreatedAt m = types.Known 1704067200%Z
    /\ UpdatedAt m = types.Unknown
    /\ VerifyJwt m = types.Known true.
Proof.
  destruct (@deploy_success_state sample.env sample.remote_ok sample.plan sample.prior
              sample.fresh
              {| api.deploy_Body := []; api.deploy_StatusCode := 201;
                 api.JSON201 := Some sample.deployed |}
              sample.deployed)
    as (m & Hc & _ & Hid & _ & _ & _ & Hversion & Hcreated & Hupdated & _ & _ & _ & Hjwt & _);
    try reflexivity.
  exists m. repeat split; assumption.
Defined.

Lemma errors_are_diagnostics_witness :
  let deployed := run sample.remote_ok
                    (deployFunction sample.env (tfsdk.Get_value sample.plan_nowhere)) in
  let r := run sample.remote_404
             (FunctionBodyDataSource_Read sample.body_config sample.body_fresh) in
  diag.HasError (fst (value deployed)) = true
  /\ requests deployed = []
  /\ diag.HasError (resource.Diagnostics (value r)) = true
  /\ resource.State (value r) = None.
Proof.
  destruct (@errors_are_diagnostics sample.env sample.remote_ok sample.plan_nowhere
              sample.prior sample.fresh sample.body_config sample.body_fresh)
    as (Hdeploy & Hnone & _); [reflexivity|].
  destruct (@errors_are_diagnostics sample.env sample.remote_404 sample.plan_nowhere
              sample.prior sample.fresh sample.body_config sample.body_fresh)
    as (_ & _ & Hbody & _ & _ & Hstate); [reflexivity|].
  split; [apply Hdeploy; left; reflexivity|].
  split; [apply Hnone; reflexivity|].
  split; [apply Hbody; reflexivity|].
  apply Hstate, Hbody. reflexivity.
Defined.

Lemma read_not_found_keeps_state_witness :
  resource.State
    (value (run sample.remote_404
              (Read {| resource.read_State := sample.prior |} sample.current)))
  = Some sample.state.
Proof.
  apply (@read_not_found_keeps_state sample.remote_404 sample.prior sample.current
           {| api.get_Body := []; api.get_StatusCode := 404; api.JSON200 := None |});
    reflexivity.
Defined.

Lemma verify_jwt_defaults_to_true_witness :
  exists members files,
    let rq := api.V1DeployAFunctionWithBodyWithResponse
                "mayuaycdtijbctgqbycg" {| api.Slug := Some "hello-world" |}
                "multipart/form-data; boundary=0a1b2c3d"
                ({| multipart.FormName := "metadata";
                    multipart.FileName := None;
                    multipart.ContentType := None;
                    multipart.Content := json_Encode sample.env (JObject members) |}
                   :: files) in
    In ("verify_jwt", JBool true) members
    /\ requests (run sample.remote_ok
                   (Create sample.env {| resource.create_Plan := sample.plan |}
                           sample.fresh))
       = [rq]
    /\ requests (run sample.remote_ok
                   (Update sample.env {| resource.update_Plan := sample.plan;
                                         resource.update_State := sample.prior |}
                           sample.current))
       = [rq].
Proof.
  destruct (@verify_jwt_defaults_to_true sample.env sample.remote_ok sample.config None)
    as (_ & _ & members & files & Hmember & _ & Hsend); [reflexivity|].
  exists members, files. cbv zeta. split; [exact Hmember|]. split.
  - destruct (Hsend sample.prior sample.fresh eq_refl eq_refl) as [H _]. exact H.
  - destruct (Hsend sample.prior sample.current eq_refl eq_refl) as [_ H]. exact H.
Defined.

Lemma slug_is_validated_witness :
  (diag.HasError (ValidateConfig Schema sample.config_bad_slug) = true
   /\ requests (run sample.remote_ok (Apply sample.env sample.config_bad_slug None)) = [])
  /\ exists ref s contentType body,
      expected.request sample.env (PlanResourceChange Schema sample.config None)
      = api.V1DeployAFunctionWithBodyWithResponse
          ref {| api.Slug := Some s |} contentType body
      /\ regexp.MatchString slug_pattern s = true.
Proof.
  split.
  - destruct (@slug_is_validated sample.env sample.remote_ok sample.config_bad_slug None)
      as [Hbad _]; [reflexivity|].
    apply (Hbad "1-hello"); reflexivity.
  - destruct (@slug_is_validated sample.env sample.remote_ok sample.config None)
      as [_ Hgood]; [reflexivity|].
    apply Hgood. left. reflexivity.
Defined.

(** C6, as stated, fails: with a source directory that does not exist
    [deployFunction] returns an error although the deploy call, had it been
    issued, would not have failed. *)
Lemma deploy_error_without_failed_call :
  ~ (diag.HasError
       (fst (value (run sample.remote_ok
                      (deployFunction sample.env (tfsdk.Get_value sample.plan_nowhere)))))
     = true
     <-> failed.deploy
           (sample.remote_ok []
              (expected.request sample.env (tfsdk.Get_value sample.plan_nowhere)))
         = true).
Proof.
  intros [Hfails _].
  assert (Herr : diag.HasError
                   (fst (value (run sample.remote_ok
                                  (deployFunction sample.env
                                     (tfsdk.Get_value sample.plan_nowhere)))))
                 = true) by reflexivity.
  apply Hfails in Herr. discriminate Herr.
Qed.

(** * Further properties of the handlers *)

(** ** The walk of the source directory *)

Section walk_outcome.
Variable env : Env.

(** The error a walk ends with is the error of the first entry that fails. *)
Lemma walk_first_error (n : node) :
  forall w path, snd (filepath.walk (walkFn env) w path n) = walked.first_error n.
Proof.
  induction n as [e|f|e|entries IH] using node_tree_ind; intros w path;
    cbn -[walkFn].
  - reflexivity.
  - rewrite walkFn_File. destruct f as [[content [err|]]|err]; reflexivity.
  - reflexivity.
  - cbn [walkFn IsDir]. revert w.
    induction IH as [|[name child] entries Hchild _ IHentries]; intros w.
    + reflexivity.
    + cbn in Hchild. specialize (Hchild w (path ++ [name])%list).
      destruct (filepath.walk (walkFn env) w (path ++ [name])%list child)
        as [w2 [err|]]; cbn in Hchild; rewrite <- Hchild.
      * reflexivity.
      * apply IHentries.
Qed.

Lemma walkable_first_error (n : node) :
  expected.walkable n = true <-> walked.first_error n = None.
Proof.
  induction n as [e|f|e|entries IH] using node_tree_ind; cbn.
  - split; discriminate.
  - destruct f as [[content [err|]]|err]; cbn; split; congruence.
  - split; discriminate.
  - induction IH as [|[name child] entries Hchild _ IHentries].
    + split; reflexivity.
    + cbn in Hchild. rewrite andb_true_iff, Hchild, IHentries.
      destruct (walked.first_error child); intuition congruence.
Qed.

(** [deployFunction], by the first error of the walk. *)
Lemma deploy_first_error (data : FunctionResourceModel) :
  deployFunction env data
  = match walked.first_error (disk env (types.ValueString (SourceDir data))) with
    | Some e =>
        Ret (client_error ("Unable to read source directory, got error: " ++ e), data)
    | None =>
        Call (expected.request env data) (fun reply => Ret (deployReply data reply))
    end.
Proof.
  destruct (deployFunction_cases env data) as [[Hwalk ->] | [Hwalk [err Hret]]].
  - apply walkable_first_error in Hwalk. rewrite Hwalk. reflexivity.
  - rewrite Hret. revert Hret. unfold deployFunction, filepath.Walk.
    cbn [multipart.CreateFormField Encode multipart.Close].
    set (w0 := multipart.Write _ _).
    pose proof (walk_first_error (disk env (types.ValueString (SourceDir data))) w0 [])
      as Hfirst.
    destruct (filepath.walk (walkFn env) w0 [] _) as [w [e|]]; cbn in Hfirst;
      rewrite <- Hfirst.
    + intros Hret. symmetry. exact Hret.
    + discriminate.
Qed.

(** X1.  [deployFunction] gives up on the first entry of the source
    directory, in the order of the walk, that cannot be stated, listed,
    opened or read to its end: it reports the error of that entry, wrapped
    as the walk function wraps it, returns the model as it was and issues no
    call.  When there is no such entry it issues the deploy call. *)
Theorem deploy_reports_first_error (data : FunctionResourceModel) :
  deployFunction env data
  = match walked.first_error (disk env (types.ValueString (SourceDir data))) with
    | Some e =>
        Ret (client_error ("Unable to read source directory, got error: " ++ e), data)
    | None =>
        Call (expected.request env data) (fun reply => Ret (deployReply data reply))
    end.
Proof. exact (deploy_first_error data). Qed.

(** X2.  The walk stops at the first entry that fails: when the entries of
    the source directory listed before an entry can all be walked, the error
    reported is that of the entry, whatever is listed after it. *)
Theorem deploy_stops_at_first_error
        (data : FunctionResourceModel) (before after : list (string * node))
        (name : string) (bad : node) (e : error) :
  disk env (types.ValueString (SourceDir data)) = Dir (before ++ (name, bad) :: after) ->
  forallb (fun entry => expected.walkable (snd entry)) before = true ->
  walked.first_error bad = Some e ->
  deployFunction env data
  = Ret (client_error ("Unable to read source directory, got error: " ++ e), data).
Proof.
  intros Hdisk Hbefore Hbad.
  rewrite deploy_first_error, Hdisk.
  replace (walked.first_error (Dir (before ++ (name, bad) :: after))) with (Some e);
    [reflexivity|].
  clear Hdisk. cbn. induction before as [|[n c] before IH]; cbn.
  - rewrite Hbad. reflexivity.
  - cbn in Hbefore. apply andb_true_iff in Hbefore as [Hc Hrest].
    apply walkable_first_error in Hc. rewrite Hc. apply IH, Hrest.
Qed.

End walk_outcome.

(** ** What the handlers call, store and log *)

(** Every way [Read], [Delete] and the read of the data source can go. *)
Ltac fetch_paths :=
  unfold Read, Delete, FunctionBodyDataSource_Read, FunctionBodyDataSource_reply,
    readFunction, deleteFunction, readReply, deleteReply, run;
  cbn;
  repeat first
    [ match goal with
      | |- context [match ?r with inl _ => _ | inr _ => _ end] => destruct r eqn:?
      | |- context [match api.JSON200 ?r with Some _ => _ | None => _ end] =>
          destruct (api.JSON200 r) eqn:?
      | |- context [if ?b then _ else _] => destruct b eqn:?
      end
    | progress cbn
    | progress rewrite ?Append_nil, ?HasError_client_error, ?HasError_AddError ].

Section handler_outcomes.
Variable env : Env.
Variable remote : Remote.

(** X3.  The calls of a handler are fixed by its input alone: [Read] issues
    the GET and [Delete] the DELETE of the project and slug recorded in the
    state, the data source the GET of the body for its configuration, and
    [Create] and [Update] the deploy call provided the source directory can
    be walked; none of them issues any call when the diagnostics coming in
    or the decoding report an error, and none issues any other call. *)
Theorem calls_issued
        (plan st : tfsdk.Data FunctionResourceModel) (resp : Model_Response)
        (config : datasource_ReadRequest) (dresp : datasource_ReadResponse) :
  requests (run remote (Read {| resource.read_State := st |} resp))
  = (if diag.HasError (diag.Append (resource.Diagnostics resp) (tfsdk.Get_diags st))
     then []
     else [api.V1GetAFunctionWithResponse
             (types.ValueString (ProjectRef (tfsdk.Get_value st)))
             (types.ValueString (Slug (tfsdk.Get_value st)))])
  /\ requests (run remote (Delete {| resource.delete_State := st |} resp))
     = (if diag.HasError (diag.Append (resource.Diagnostics resp) (tfsdk.Get_diags st))
        then []
        else [api.V1DeleteAFunctionWithResponse
                (types.ValueString (ProjectRef (tfsdk.Get_value st)))
                (types.ValueString (Slug (tfsdk.Get_value st)))])
  /\ requests (run remote (FunctionBodyDataSource_Read config dresp))
     = (if diag.HasError (diag.Append (resource.Diagnostics dresp) (tfsdk.Get_diags config))
        then []
        else [api.V1GetAFunctionBodyWithResponse
                (types.ValueString (ds_ProjectRef (tfsdk.Get_value config)))
                (types.ValueString (ds_Slug (tfsdk.Get_value config)))])
  /\ requests (run remote (Create env {| resource.create_Plan := plan |} resp))
     = (if diag.HasError (diag.Append (resource.Diagnostics resp) (tfsdk.Get_diags plan))
        then []
        else if expected.walkable
                  (disk env (types.ValueString (SourceDir (tfsdk.Get_value plan))))
        then [expected.request env (tfsdk.Get_value plan)]
        else [])
  /\ requests (run remote (Update env {| resource.update_Plan := plan;
                                         resource.update_State := st |} resp))
     = (if diag.HasError (diag.Append (resource.Diagnostics resp) (tfsdk.Get_diags plan))
        then []
        else if expected.walkable
                  (disk env (types.ValueString (SourceDir (tfsdk.Get_value plan))))
        then [expected.request env (tfsdk.Get_value plan)]
        else []).
Proof.
  split; [|split; [|split; [|split]]].
  - fetch_paths; reflexivity.
  - fetch_paths; reflexivity.
  - fetch_paths; reflexivity.
  - deploy_paths env plan remote; rewrite ?Hwalk; reflexivity.
  - deploy_paths env plan remote; rewrite ?Hwalk; reflexivity.
Qed.

(** X4.  A [Read] that is answered with a parsed 200 body stores the id, the
    slug, the name, the status, the version and both times of the response,
    the JWT flag of the response when it carries one and that of the prior
    state when it does not, and the project reference, entrypoint, source
    directory and import map of the prior state. *)
Theorem read_success_state
        (st : tfsdk.Data FunctionResourceModel) (resp : Model_Response)
        (got : api.V1GetAFunctionResponse) (result : api.FunctionSlugResponse) :
  let data := tfsdk.Get_value st in
  diag.HasError (diag.Append (resource.Diagnostics resp) (tfsdk.Get_diags st)) = false ->
  remote [] (api.V1GetAFunctionWithResponse
               (types.ValueString (ProjectRef data)) (types.ValueString (Slug data)))
  = inl got ->
  Z.eqb (api.get_StatusCode got) 404 = false ->
  api.JSON200 got = Some result ->
  resource.State (value (run remote (Read {| resource.read_State := st |} resp)))
  = Some {| ProjectRef := ProjectRef data;
            Slug := types.Known (api.fsr_Slug result);
            EntrypointPath := EntrypointPath data;
            SourceDir := SourceDir data;
            Name := types.Known (api.fsr_Name result);
            VerifyJwt := match api.fsr_VerifyJwt result with
                         | Some b => types.Known b
                         | None => VerifyJwt data
                         end;
            ImportMapPath := ImportMapPath data;
            Id := types.Known (api.fsr_Id result);
            Status := types.Known (api.fsr_Status result);
            Version := types.Known (api.fsr_Version result);
            CreatedAt := types.Known (api.fsr_CreatedAt result);
            UpdatedAt := types.Known (api.fsr_UpdatedAt result) |}.
Proof.
  intros data Hclean Hreply Hstatus Hjson. subst data.
  unfold Read, readFunction, readReply, run. cbn.
  rewrite Hclean. cbn. rewrite Hreply. cbn.
  unfold api.http_StatusNotFound. rewrite Hstatus, Hjson. cbn.
  rewrite Append_nil, Hclean. cbn.
  destruct (api.fsr_VerifyJwt result); reflexivity.
Qed.

(** X5.  A [Read] whose state decodes without an error reports an error
    exactly when the transport errs or the response is neither a 404 nor a
    parsed 200 body; a 404 is no error even when a body was parsed.  A [Read]
    that reports an error leaves the state it was given. *)
Theorem read_error_iff
        (st : tfsdk.Data FunctionResourceModel) (resp : Model_Response) :
  diag.HasError (diag.Append (resource.Diagnostics resp) (tfsdk.Get_diags st)) = false ->
  let data := tfsdk.Get_value st in
  let out := run remote (Read {| resource.read_State := st |} resp) in
  (diag.HasError (resource.Diagnostics (value out)) = true
   <-> match remote [] (api.V1GetAFunctionWithResponse
                          (types.ValueString (ProjectRef data))
                          (types.ValueString (Slug data))) with
       | inr _ => True
       | inl got =>
           api.get_StatusCode got <> 404%Z /\ api.JSON200 got = None
       end)
  /\ (diag.HasError (resource.Diagnostics (value out)) = true ->
      resource.State (value out) = resource.State resp).
Proof.
  intros Hclean data out. subst data out.
  unfold Read, readFunction, readReply, run. cbn. rewrite Hclean. cbn.
  destruct (remote [] _) as [got|e]; cbn.
  - unfold api.http_StatusNotFound.
    destruct (Z.eqb_spec (api.get_StatusCode got) 404) as [E|E]; cbn.
    + repeat (rewrite ?Append_nil, ?Hclean; cbn). intuition congruence.
    + destruct (api.JSON200 got); cbn;
        repeat (rewrite ?Append_nil, ?HasError_client_error, ?Hclean; cbn);
        intuition congruence.
  - repeat (rewrite ?HasError_client_error; cbn). intuition.
Qed.

(** X6.  [Delete] never touches the state of its response, whatever the API
    replies; and a [Delete] whose state decodes without an error reports an
    error exactly when the transport errs or the status is neither 404 nor
    200. *)
Theorem delete_outcome
        (st : tfsdk.Data FunctionResourceModel) (resp : Model_Response) :
  let data := tfsdk.Get_value st in
  let out := run remote (Delete {| resource.delete_State := st |} resp) in
  resource.State (value out) = resource.State resp
  /\ (diag.HasError (diag.Append (resource.Diagnostics resp) (tfsdk.Get_diags st)) = false ->
      (diag.HasError (resource.Diagnostics (value out)) = true
       <-> match remote [] (api.V1DeleteAFunctionWithResponse
                              (types.ValueString (ProjectRef data))
                              (types.ValueString (Slug data))) with
           | inr _ => True
           | inl deleted =>
               api.delete_StatusCode deleted <> 404%Z
               /\ api.delete_StatusCode deleted <> 200%Z
           end)).
Proof.
  intros data out. subst data out. split.
  - fetch_paths; reflexivity.
  - intros Hclean.
    unfold Delete, deleteFunction, deleteReply, run. cbn. rewrite Hclean. cbn.
    destruct (remote [] _) as [deleted|e]; cbn.
    + unfold api.http_StatusNotFound, api.http_StatusOK.
      destruct (Z.eqb_spec (api.delete_StatusCode deleted) 404) as [E|E]; cbn.
      * repeat (rewrite ?Append_nil, ?Hclean; cbn). intuition congruence.
      * destruct (Z.eqb_spec (api.delete_StatusCode deleted) 200) as [E'|E']; cbn;
          repeat (rewrite ?Append_nil, ?HasError_client_error, ?Hclean; cbn);
          intuition congruence.
    + repeat (rewrite ?HasError_client_error; cbn). intuition.
Qed.

(** X7.  Each handler logs its trace message exactly when it ends without an
    error, and logs nothing else. *)
Theorem trace_on_success_only
        (plan st : tfsdk.Data FunctionResourceModel) (resp : Model_Response)
        (config : datasource_ReadRequest) (dresp : datasource_ReadResponse) :
  let logged (A : Type) (out : Outcome (resource.Response A)) (msg : string) :=
    tflog out = if diag.HasError (resource.Diagnostics (value out)) then [] else [msg] in
  logged _ (run remote (Create env {| resource.create_Plan := plan |} resp))
         "created edge function resource"
  /\ logged _ (run remote (Read {| resource.read_State := st |} resp)) "read function"
  /\ logged _ (run remote (Update env {| resource.update_Plan := plan;
                                         resource.update_State := st |} resp))
            "updated function"
  /\ logged _ (run remote (Delete {| resource.delete_State := st |} resp))
            "deleted function"
  /\ logged _ (run remote (FunctionBodyDataSource_Read config dresp))
            "read function body data source".
Proof.
  intros logged. subst logged. cbv beta.
  split; [|split; [|split; [|split]]].
  - deploy_paths env plan remote; rewrite ?Hpre, ?HasError_client_error; reflexivity.
  - unfold Read, readFunction, run. cbn.
    destruct (diag.HasError (diag.Append _ _)) eqn:Hpre; cbn; [now rewrite Hpre|].
    destruct (readReply _ _) as [d m] eqn:Hr. cbn.
    destruct (diag.HasError (diag.Append _ d)) eqn:Hpost; cbn; now rewrite Hpost.
  - deploy_paths env plan remote; rewrite ?Hpre, ?HasError_client_error; reflexivity.
  - unfold Delete, deleteFunction, run. cbn.
    destruct (diag.HasError (diag.Append _ _)) eqn:Hpre; cbn; [now rewrite Hpre|].
    destruct (deleteReply _ _) as [d m] eqn:Hr. cbn.
    destruct (diag.HasError (diag.Append _ d)) eqn:Hpost; cbn; now rewrite Hpost.
  - unfold FunctionBodyDataSource_Read, FunctionBodyDataSource_reply, run. cbn.
    destruct (diag.HasError (diag.Append _ _)) eqn:Hpre; cbn; [now rewrite Hpre|].
    destruct (remote [] _) as [r|e]; cbn.
    + destruct (negb _); cbn; rewrite ?HasError_AddError, ?Hpre; reflexivity.
    + rewrite HasError_AddError. reflexivity.
Qed.

(** X8.  A helper that returns an error returns the model as it was handed
    it: [deployFunction], [readFunction] and [deleteFunction] change the
    model only on success, and [deleteFunction] does not change it at all. *)
Theorem failure_leaves_model (data : FunctionResourceModel) :
  (diag.HasError (fst (value (run remote (deployFunction env data)))) = true ->
   snd (value (run remote (deployFunction env data))) = data)
  /\ (diag.HasError (fst (value (run remote (readFunction data)))) = true ->
      snd (value (run remote (readFunction data))) = data)
  /\ snd (value (run remote (deleteFunction data))) = data.
Proof.
  split; [|split].
  - unfold run. deploy_cases env data; cbn; [|reflexivity].
    unfold deployReply. destruct (remote [] _) as [r|e]; cbn; [|reflexivity].
    destruct (api.JSON201 r); cbn; [discriminate|reflexivity].
  - unfold readFunction, readReply, run. cbn.
    destruct (remote [] _) as [r|e]; cbn; [|reflexivity].
    destruct (Z.eqb _ _); cbn; [reflexivity|].
    destruct (api.JSON200 r); cbn; [discriminate|reflexivity].
  - unfold deleteFunction, deleteReply, run. cbn.
    destruct (remote [] _) as [r|e]; cbn; [|reflexivity].
    destruct (Z.eqb _ _); cbn; [reflexivity|].
    destruct (negb _); reflexivity.
Qed.

End handler_outcomes.

(** ** Refreshing, and what is left unknown *)

Lemma readReply_settles (data : FunctionResourceModel)
      (reply : api.V1GetAFunctionResponse + error) :
  readReply (snd (readReply data reply)) reply = readReply data reply.
Proof.
  unfold readReply. destruct reply as [got|e]; [|reflexivity].
  destruct (Z.eqb _ _); [reflexivity|].
  destruct (api.JSON200 got) as [result|]; [|reflexivity].
  destruct (api.fsr_VerifyJwt result); reflexivity.
Qed.

Section refresh.
Variable remote : Remote.

(** X9.  Refreshing is stable: against an API that answers every GET of a
    function alike, a [Read] of the state that an earlier [Read] stored
    without an error stores that state again. *)
Theorem refresh_is_stable
        (st : tfsdk.Data FunctionResourceModel) (resp : Model_Response)
        (reply : api.V1GetAFunctionResponse + error) (m : FunctionResourceModel) :
  (forall history projectRef functionSlug,
      remote history (api.V1GetAFunctionWithResponse projectRef functionSlug) = reply) ->
  let first := value (run remote (Read {| resource.read_State := st |} resp)) in
  diag.HasError (resource.Diagnostics first) = false ->
  resource.State first = Some m ->
  value (run remote
           (Read {| resource.read_State :=
                      {| tfsdk.Get_diags := []; tfsdk.Get_value := m |} |} first))
  = first.
Proof.
  intros Hsame first. subst first.
  unfold Read, readFunction, run. cbn.
  destruct (diag.HasError (diag.Append _ _)) eqn:Hpre; cbn.
  - rewrite Hpre. discriminate.
  - rewrite !Hsame.
    destruct (readReply (tfsdk.Get_value st) reply) as [d data'] eqn:Hreply. cbn.
    destruct (diag.HasError (diag.Append _ d)) eqn:Hpost; cbn.
    + rewrite Hpost. discriminate.
    + intros _ Hm. injection Hm as <-.
      rewrite Append_nil, Hpost. cbn. rewrite Hsame.
      pose proof (readReply_settles (tfsdk.Get_value st) reply) as Hagain.
      rewrite Hreply in Hagain. cbn in Hagain. rewrite Hagain. cbn.
      assert (Hd : d = []).
      { revert Hreply Hpost. unfold readReply.
        destruct reply as [got|e].
        - destruct (Z.eqb _ _); [congruence|].
          destruct (api.JSON200 got); [congruence|].
          intros [= <- _]. now rewrite HasError_client_error.
        - intros [= <- _]. now rewrite HasError_client_error. }
      subst d. rewrite !Append_nil, Hpre. cbn.
      unfold resource.State_Set, resource.Append. cbn. rewrite !Append_nil.
      reflexivity.
Qed.

(** X10.  [Read] brings no unknown value into the state: from a prior state
    without unknown values it either leaves the state of the response as it
    was given or stores a model without unknown values. *)
Theorem read_keeps_state_known
        (st : tfsdk.Data FunctionResourceModel) (resp : Model_Response) :
  known.model (tfsdk.Get_value st) = true ->
  let out := value (run remote (Read {| resource.read_State := st |} resp)) in
  resource.State out = resource.State resp
  \/ exists m, resource.State out = Some m /\ known.model m = true.
Proof.
  intros Hknown out. subst out.
  unfold Read, readFunction, readReply, run. cbn.
  destruct (diag.HasError (diag.Append _ _)) eqn:Hpre; cbn; [auto|].
  destruct (remote [] _) as [got|e]; cbn.
  - destruct (Z.eqb _ _); cbn.
    + rewrite Append_nil, Hpre. cbn. eauto.
    + destruct (api.JSON200 got) as [result|]; cbn.
      * rewrite Append_nil, Hpre. cbn. right. eexists. split; [reflexivity|].
        revert Hknown. unfold known.model. cbn.
        destruct (api.fsr_VerifyJwt result); cbn;
          rewrite ?andb_true_r; intros H;
          repeat (apply andb_true_iff in H as [H ?]);
          repeat (apply andb_true_iff; split); auto.
      * rewrite HasError_client_error. auto.
  - rewrite HasError_client_error. auto.
Qed.

End refresh.

Section settle.
Variable env : Env.
Variable remote : Remote.

(** X11.  A successful [Create] leaves a time unknown in the state exactly when
    the response does not carry it and the plan did not know it; with both
    times in the response and no unknown value among the planned inputs the
    stored model has no unknown value. *)
Theorem create_settles_state
        (plan : tfsdk.Data FunctionResourceModel) (resp : Model_Response)
        (httpResp : api.V1DeployAFunctionResponse)
        (result : api.DeployFunctionResponse) :
  let data := tfsdk.Get_value plan in
  diag.HasError (diag.Append (resource.Diagnostics resp) (tfsdk.Get_diags plan)) = false ->
  expected.walkable (disk env (types.ValueString (SourceDir data))) = true ->
  remote [] (expected.request env data) = inl httpResp ->
  api.JSON201 httpResp = Some result ->
  exists m,
    resource.State (value (run remote
      (Create env {| resource.create_Plan := plan |} resp))) = Some m
    /\ (types.IsUnknown (CreatedAt m) = true
        <-> api.dfr_CreatedAt result = None /\ types.IsUnknown (CreatedAt data) = true)
    /\ (types.IsUnknown (UpdatedAt m) = true
        <-> api.dfr_UpdatedAt result = None /\ types.IsUnknown (UpdatedAt data) = true)
    /\ (known.inputs data = true ->
        api.dfr_CreatedAt result <> None ->
        api.dfr_UpdatedAt result <> None ->
        known.model m = true).
Proof.
  intros data Hclean Hwalk Hreply Hjson. subst data.
  exists (deployResult result (tfsdk.Get_value plan)).
  split.
  - deploy_paths env plan remote; congruence.
  - unfold deployResult, known.model, known.inputs.
    destruct (api.dfr_CreatedAt result), (api.dfr_UpdatedAt result); cbn;
      (split; [|split]); try (intuition congruence);
      intros H; intros; try congruence.
    repeat (apply andb_true_iff in H as [H ?]).
    repeat (apply andb_true_iff; split); auto.
Qed.

End settle.

(** ** The metadata object *)

(** X12.  The metadata object that [deployFunction] encodes starts with the
    entrypoint, names no member twice and never has the member
    [static_patterns]; a known JWT flag is a member with its value, false as
    well as true, and a null or unknown one is no member. *)
Theorem metadata_object (env : Env) (data : FunctionResourceModel) :
  exists members,
    Marshal (deployMetadata env data) = JObject members
    /\ hd_error members
       = Some ("entrypoint_path",
               JString (filepath.ToSlash (goos env)
                          (types.ValueString (EntrypointPath data))))
    /\ NoDup (map fst members)
    /\ ~ In "static_patterns" (map fst members)
    /\ (forall b, VerifyJwt data = types.Known b -> In ("verify_jwt", JBool b) members)
    /\ (types.IsNull (VerifyJwt data) || types.IsUnknown (VerifyJwt data) = true ->
        ~ In "verify_jwt" (map fst members)).
Proof.
  exists (expected.metadata_members (goos env) data).
  split; [apply Marshal_deployMetadata|].
  unfold expected.metadata_members.
  destruct (ImportMapPath data), (Name data), (VerifyJwt data); cbn;
    (split; [reflexivity|]);
    (split; [repeat constructor; cbn; intuition discriminate|]);
    (split; [intuition discriminate|]);
    (split; [intros b' Hb; try discriminate Hb; injection Hb as <-; auto 10|]);
    intros H; try discriminate H; intuition discriminate.
Qed.

(** ** Validation *)

Lemma HasError_read_only (A : Type) (computed optional : bool) (attr : string)
      (v : types.Value A) :
  diag.HasError (schema.read_only computed optional attr v)
  = computed && negb optional && negb (types.IsNull v).
Proof.
  unfold schema.read_only.
  destruct (computed && negb optional && negb (types.IsNull v)); reflexivity.
Qed.

Lemma validate_plain (a : schema.StringAttribute) (attr : string) (v : types.String) :
  schema.s_Validators a = [] ->
  diag.HasError (schema.validate_string a attr v)
  = (schema.s_Required a && types.IsNull v)
    || (schema.s_Computed a && negb (schema.s_Optional a) && negb (types.IsNull v)).
Proof.
  intros Hnone. unfold schema.validate_string. rewrite Hnone. cbn [flat_map].
  rewrite app_nil_r, HasError_app_list, HasError_read_only.
  destruct (schema.s_Required a && types.IsNull v); reflexivity.
Qed.

Lemma validate_slug (v : types.String) :
  diag.HasError (schema.validate_string (slug Schema) "slug" v)
  = match v with
    | types.Null => true
    | types.Unknown => false
    | types.Known s => negb (regexp.MatchString slug_pattern s)
    end.
Proof.
  destruct v as [| |s]; try reflexivity.
  unfold schema.validate_string. cbn -[regexp.MatchString slug_pattern].
  destruct (regexp.MatchString slug_pattern s); reflexivity.
Qed.

(** X13.  The slug validator of the schema accepts a known slug exactly when
    it starts with an ASCII letter and goes on with ASCII letters, digits,
    underscores and hyphens only; the empty slug is refused. *)
Theorem slug_validator_accepts (s : string) :
  diag.HasError (schema.validate_string (slug Schema) "slug" (types.Known s)) = false
  <-> exists c rest,
      s = String c rest
      /\ regexp.in_class [("A", "Z"); ("a", "z")]%char c = true
      /\ regexp.all_chars
           (regexp.in_class
              [("A", "Z"); ("a", "z"); ("0", "9"); ("_", "_"); ("-", "-")]%char) rest
         = true.
Proof.
  rewrite validate_slug, negb_false_iff, slug_pattern_spec.
  destruct s as [|c rest].
  - split; [discriminate|]. intros (c & rest & H & _). discriminate H.
  - rewrite andb_true_iff. split.
    + intros [Hc Hrest]. eauto.
    + intros (c' & rest' & [= <- <-] & Hc & Hrest). auto.
Qed.

(** X14.  A configuration passes the validation of the schema exactly when
    the project reference, the slug, the entrypoint and the source directory
    are set, the slug, if known, matches the slug pattern, and the read-only
    attributes (id, status, version and the two times) are left unset; the
    name, the JWT flag and the import map never fail it. *)
Theorem validation_accepts (config : FunctionResourceModel) :
  diag.HasError (ValidateConfig Schema config) = false
  <-> types.IsNull (ProjectRef config) = false
      /\ types.IsNull (Slug config) = false
      /\ types.IsNull (EntrypointPath config) = false
      /\ types.IsNull (SourceDir config) = false
      /\ (forall s, Slug config = types.Known s ->
                    regexp.MatchString slug_pattern s = true)
      /\ types.IsNull (Id config) = true
      /\ types.IsNull (Status config) = true
      /\ types.IsNull (Version config) = true
      /\ types.IsNull (CreatedAt config) = true
      /\ types.IsNull (UpdatedAt config) = true.
Proof.
  unfold ValidateConfig. rewrite !HasError_app_list.
  unfold schema.validate_bool, schema.validate_int64.
  rewrite validate_slug, !validate_plain, !HasError_read_only by reflexivity.
  cbn [andb orb negb Schema project_ref entrypoint_path source_dir name
         import_map_path id status verify_jwt version created_at updated_at
         required_string computed_string
         schema.s_Required schema.s_Computed schema.s_Optional
         schema.b_Computed schema.b_Optional schema.i_Computed].
  assert (Hslug :
            match Slug config with
            | types.Null => true
            | types.Unknown => false
            | types.Known s => negb (regexp.MatchString slug_pattern s)
            end = false
            <-> types.IsNull (Slug config) = false
                /\ (forall s, Slug config = types.Known s ->
                              regexp.MatchString slug_pattern s = true)).
  { destruct (Slug config) as [| |s]; cbn.
    - intuition discriminate.
    - split; [intros _; split; [reflexivity | intros ? [=]] | reflexivity].
    - rewrite negb_false_iff. split.
      + intros H. split; [reflexivity | intros ? [= <-]; exact H].
      + intros [_ H]. apply H. reflexivity. }
  rewrite ?orb_false_r, !orb_false_iff, !negb_false_iff, Hslug. tauto.
Qed.

(** ** Configure *)

Lemma Equal_refl (d : diag.Diagnostic) : diag.Equal d d = true.
Proof.
  unfold diag.Equal. destruct (diag.severity d); now rewrite !String.eqb_refl.
Qed.

Lemma AddError_unfold (summary detail : string) (ds : diag.Diagnostics) :
  diag.AddError summary detail ds
  = if diag.Contains ds (diag.NewErrorDiagnostic summary detail) then ds
    else (ds ++ [diag.NewErrorDiagnostic summary detail])%list.
Proof. reflexivity. Qed.

Lemma AddError_cases (summary detail : string) (ds : diag.Diagnostics) :
  exists added,
    diag.AddError summary detail ds = (ds ++ added)%list
    /\ forallb diag.is_error added = true
    /\ (length added <= 1)%nat.
Proof.
  rewrite AddError_unfold.
  destruct (diag.Contains ds _).
  - exists []. rewrite app_nil_r. auto.
  - eexists [_]. auto.
Qed.

(** An error that is reported again is not added again. *)
Lemma AddError_again (summary detail : string) (ds : diag.Diagnostics) :
  diag.AddError summary detail (diag.AddError summary detail ds)
  = diag.AddError summary detail ds.
Proof.
  rewrite (AddError_unfold summary detail ds).
  destruct (diag.Contains ds _) eqn:Hin.
  - rewrite AddError_unfold, Hin. reflexivity.
  - rewrite AddError_unfold.
    replace (diag.Contains (ds ++ [diag.NewErrorDiagnostic summary detail])%list
               (diag.NewErrorDiagnostic summary detail)) with true; [reflexivity|].
    unfold diag.Contains. rewrite existsb_app. cbn [existsb].
    now rewrite Equal_refl, !orb_true_r.
Qed.

Section configured.
Variable C : Type.

Section any_Configure.
Variable Configure : configure.Receiver C -> configure.ProviderData C
                     -> diag.Diagnostics -> configure.Receiver C * diag.Diagnostics.
Variable summary : string.
Variable detail : string -> string.
Hypothesis on_nil : forall r resp, Configure r configure.NoData resp = (r, resp).
Hypothesis on_client :
  forall r c resp,
    Configure r (configure.ClientData c) resp = ({| configure.client := Some c |}, resp).
Hypothesis on_other :
  forall r t resp,
    Configure r (configure.OtherData t) resp
    = (r, diag.AddError summary (detail t) resp).

Lemma Configure_each_outcome (reqs : list (configure.ProviderData C)) :
  forall (r : configure.Receiver C) (resp : diag.Diagnostics),
    let out := configure.Configure_each Configure r reqs resp in
    configure.client (fst out) = configure.last_client (configure.client r) reqs
    /\ (exists added,
           snd out = (resp ++ added)%list
           /\ forallb diag.is_error added = true
           /\ (length added <= length (filter configure.is_other reqs))%nat)
    /\ diag.HasError (snd out) = diag.HasError resp || existsb configure.is_other reqs.
Proof.
  induction reqs as [|req reqs IH]; intros r resp.
  - cbn. split; [reflexivity|]. split; [|now rewrite orb_false_r].
    exists []. rewrite app_nil_r. auto.
  - cbn [configure.Configure_each]. destruct req as [|c|t].
    + rewrite on_nil. apply IH.
    + rewrite on_client. apply IH.
    + rewrite on_other.
      destruct (IH r (diag.AddError summary (detail t) resp))
        as (Hclient & (added & Hsnd & Herr & Hlen) & Hhas).
      split; [exact Hclient|]. split.
      * destruct (AddError_cases summary (detail t) resp) as (first & Hfirst & Hferr & Hflen).
        exists (first ++ added)%list. rewrite Hsnd, Hfirst, <- app_assoc.
        split; [reflexivity|]. split.
        -- rewrite forallb_app, Hferr, Herr. reflexivity.
        -- rewrite length_app. cbn. lia.
      * rewrite Hhas, HasError_AddError. cbn. now rewrite orb_true_r.
Qed.

End any_Configure.

(** X16.  However often and with whatever provider data [Configure] is
    called, on the resource or on the data source, the client afterwards is
    the last client that was handed in, or the client of before when none
    was; the diagnostics of before are kept and only errors are added, at
    most one for each value that was neither nil nor a client, and there is
    an error afterwards exactly when there was one before or such a value was
    handed in.  A call without provider data changes nothing, and a call
    that reports a wrong value a second time adds nothing. *)
Theorem configure_keeps_last_client
        (r : configure.Receiver C) (reqs : list (configure.ProviderData C))
        (resp : diag.Diagnostics) (typeName : string) :
  let configured (out : configure.Receiver C * diag.Diagnostics) :=
    configure.client (fst out) = configure.last_client (configure.client r) reqs
    /\ (exists added,
           snd out = (resp ++ added)%list
           /\ forallb diag.is_error added = true
           /\ (length added <= length (filter configure.is_other reqs))%nat)
    /\ diag.HasError (snd out) = diag.HasError resp || existsb configure.is_other reqs in
  let again (Configure : configure.Receiver C -> configure.ProviderData C
                         -> diag.Diagnostics -> configure.Receiver C * diag.Diagnostics) :=
    let once := Configure r (configure.OtherData typeName) resp in
    Configure (fst once) (configure.OtherData typeName) (snd once) = once in
  configured (configure.Configure_each configure.FunctionResource_Configure r reqs resp)
  /\ configured (configure.Configure_each configure.FunctionBodyDataSource_Configure
                   r reqs resp)
  /\ configure.FunctionResource_Configure r configure.NoData resp = (r, resp)
  /\ configure.FunctionBodyDataSource_Configure r configure.NoData resp = (r, resp)
  /\ again configure.FunctionResource_Configure
  /\ again configure.FunctionBodyDataSource_Configure.
Proof.
  cbv zeta. split; [|split; [|split; [|split; [|split]]]].
  - apply (@Configure_each_outcome
             configure.FunctionResource_Configure
             "Unexpected Resource Configure Type"
             (fun t => "Expected *http.Client, got: " ++ t
                         ++ ". Please report this issue to the provider developers."));
      reflexivity.
  - apply (@Configure_each_outcome
             configure.FunctionBodyDataSource_Configure
             "Unexpected Data Source Configure Type"
             (fun t => "Expected *api.ClientWithResponses, got: " ++ t
                         ++ ". Please report this issue to the provider developers."));
      reflexivity.
  - reflexivity.
  - reflexivity.
  - cbn -[diag.AddError]. now rewrite AddError_again.
  - cbn -[diag.AddError]. now rewrite AddError_again.
Qed.

End configured.

(** ** Sources without files, and paths on Windows *)

Lemma only_dirs_walk (n : node) :
  walked.only_dirs n = true ->
  forall path, walked.first_error n = None /\ expected.files_under path n = [].
Proof.
  induction n as [e|f|e|entries IH] using node_tree_ind; cbn; try discriminate.
  induction IH as [|[name child] entries Hchild _ IHentries]; intros H path.
  - auto.
  - apply andb_true_iff in H as [Hc Hrest]. cbn in Hchild.
    destruct (Hchild Hc (path ++ [name])%list) as [-> ->].
    apply (IHentries Hrest path).
Qed.

(** X17.  A source directory that holds no file, only directories however
    nested, is deployed all the same: the call is issued and its form holds
    the metadata field alone. *)
Theorem hollow_source_deploys_metadata_only (env : Env) (data : FunctionResourceModel) :
  walked.only_dirs (disk env (types.ValueString (SourceDir data))) = true ->
  deployFunction env data
  = Call (api.V1DeployAFunctionWithBodyWithResponse
            (types.ValueString (ProjectRef data))
            {| api.Slug := types.ValueStringPointer (Slug data) |}
            ("multipart/form-data; boundary=" ++ boundary env)
            [expected.metadata_part env data])
         (fun reply => Ret (deployReply data reply)).
Proof.
  intros Hhollow. rewrite deploy_first_error.
  destruct (only_dirs_walk _ Hhollow []) as [-> Hfiles].
  unfold expected.request, expected.form. rewrite Hfiles. reflexivity.
Qed.

Lemma free_of_app (c : ascii) (a b : string) :
  walked.free_of c (a ++ b) = walked.free_of c a && walked.free_of c b.
Proof.
  unfold walked.free_of. induction a as [|x a IH]; cbn; [reflexivity|].
  rewrite IH. apply andb_assoc.
Qed.

Lemma ReplaceAll_free_of (s : string) (old new : ascii) :
  Ascii.eqb new old = false ->
  walked.free_of old (strings_ReplaceAll s old new) = true.
Proof.
  intros Hne. unfold walked.free_of. induction s as [|c s IH]; cbn; [reflexivity|].
  rewrite IH, andb_true_r. destruct (Ascii.eqb c old) eqn:E.
  - now rewrite Hne.
  - now rewrite E.
Qed.

Lemma Join_free_of (c : ascii) (sep : string) (names : list string) :
  walked.free_of c sep = true ->
  forallb (walked.free_of c) names = true ->
  walked.free_of c (strings_Join names sep) = true.
Proof.
  intros Hsep. induction names as [|n names IH]; [reflexivity|].
  intros H. cbn in H. apply andb_true_iff in H as [Hn Hrest].
  destruct names as [|n' names]; [exact Hn|].
  change (strings_Join (n :: n' :: names) sep)
    with (n ++ sep ++ strings_Join (n' :: names) sep).
  rewrite !free_of_app, Hn, Hsep, (IH Hrest). reflexivity.
Qed.

Lemma slash_path_windows (names : list string) :
  walked.free_of "\"%char (expected.slash_path windows names) = true.
Proof.
  unfold expected.slash_path. destruct names as [|n names]; [reflexivity|].
  apply Join_free_of; [reflexivity|].
  rewrite forallb_forall. intros x Hx. apply in_map_iff in Hx as (y & <- & _).
  apply (ReplaceAll_free_of y "\"%char "/"%char). reflexivity.
Qed.

(** The writer puts a backslash only before a backslash or a double quote. *)
Lemma escapeQuotes_free_of_backslash (path : string) :
  walked.free_of "\"%char path = true ->
  walked.free_of "034"%char path = true ->
  walked.free_of "\"%char (multipart.escapeQuotes path) = true.
Proof.
  unfold walked.free_of. induction path as [|c path IH]; [reflexivity|].
  cbn. rewrite !andb_true_iff, !negb_true_iff.
  intros [Hc Hpath] [Hq Hquote]. rewrite Hc, Hq.
  destruct (Ascii.eqb c "013"%char); [|destruct (Ascii.eqb c "010"%char)]; cbn;
    rewrite ?Hc; cbn; auto.
Qed.

Section slashes.
Variable env : Env.
Variable remote : Remote.

(** X18.  On Windows no backslash of a path is sent: neither the entrypoint
    nor the import map of the metadata has one, and the file name of any part
    of a deploy request is a path without a backslash as the multipart writer
    writes it, so that it has a backslash only where the writer puts one
    before a double quote, and none when the path holds no double quote, as
    a path on Windows cannot.  On Unix the entrypoint and the import map are
    sent as they are written. *)
Theorem paths_sent_with_forward_slashes (data : FunctionResourceModel) :
  (goos env = windows ->
   walked.free_of "\"%char (md_EntrypointPath (deployMetadata env data)) = true
   /\ (forall p, md_ImportMapPath (deployMetadata env data) = Some p ->
                 walked.free_of "\"%char p = true)
   /\ (forall rq ref params contentType body part name,
          In rq (requests (run remote (deployFunction env data))) ->
          rq = api.V1DeployAFunctionWithBodyWithResponse ref params contentType body ->
          In part body ->
          multipart.FileName part = Some name ->
          exists path,
            name = multipart.escapeQuotes path
            /\ walked.free_of "\"%char path = true
            /\ (walked.free_of "034"%char path = true ->
                walked.free_of "\"%char name = true)))
  /\ (goos env = unix ->
      md_EntrypointPath (deployMetadata env data)
      = types.ValueString (EntrypointPath data)
      /\ (forall p, ImportMapPath data = types.Known p ->
                    md_ImportMapPath (deployMetadata env data) = Some p)).
Proof.
  split; intros Hos.
  - split; [|split].
    + unfold deployMetadata. rewrite Hos.
      destruct (Name data), (VerifyJwt data), (ImportMapPath data); cbn;
        apply (ReplaceAll_free_of _ "\"%char "/"%char); reflexivity.
    + unfold deployMetadata. rewrite Hos. intros p.
      destruct (Name data), (VerifyJwt data), (ImportMapPath data); cbn;
        try discriminate; intros [= <-];
        apply (ReplaceAll_free_of _ "\"%char "/"%char); reflexivity.
    + intros rq ref params contentType body part name Hrq -> Hpart Hname.
      rewrite deploy_first_error in Hrq. unfold run in Hrq.
      destruct (walked.first_error _); cbn in Hrq; [contradiction|].
      destruct Hrq as [Hrq|[]]. unfold expected.request in Hrq.
      injection Hrq as _ _ _ <-.
      unfold expected.form in Hpart. destruct Hpart as [<-|Hpart];
        [discriminate Hname|].
      apply in_map_iff in Hpart as ([names content] & <- & _).
      cbn in Hname. injection Hname as <-. rewrite Hos.
      exists (expected.slash_path windows names).
      split; [reflexivity|]. split; [apply slash_path_windows|].
      apply escapeQuotes_free_of_backslash, slash_path_windows.
  - unfold deployMetadata. rewrite Hos. split.
    + destruct (Name data), (VerifyJwt data), (ImportMapPath data); reflexivity.
    + intros p ->. destruct (Name data), (VerifyJwt data); reflexivity.
Qed.

End slashes.

(** ** File names are not sent twice *)

Lemma files_under_Dir (path : list string) (entries : list (string * node)) :
  expected.files_under path (Dir entries)
  = flat_map (fun entry => expected.files_under (path ++ [fst entry])%list (snd entry))
      entries.
Proof.
  cbn. induction entries as [|[name child] entries IH]; [reflexivity|].
  cbn. now rewrite IH.
Qed.

Lemma well_named_Dir (os : GOOS) (entries : list (string * node)) :
  walked.well_named os (Dir entries)
  = forallb (walked.plain_name os) (map fst entries)
    && walked.distinct (map fst entries)
    && forallb (fun entry => walked.well_named os (snd entry)) entries.
Proof.
  cbn. f_equal. induction entries as [|[name child] entries IH]; [reflexivity|].
  cbn. now rewrite IH.
Qed.

Lemma distinct_NoDup (names : list string) :
  walked.distinct names = true -> NoDup names.
Proof.
  induction names as [|n names IH]; cbn; [constructor|].
  intros H. apply andb_true_iff in H as [Hn Hrest]. constructor; [|auto].
  intros Hin. apply negb_true_iff in Hn.
  assert (existsb (String.eqb n) names = true) as Hex.
  { apply existsb_exists. exists n. split; [exact Hin | apply String.eqb_refl]. }
  congruence.
Qed.

(** The paths of the files below a well named node go on from the path of the
    node with plain names, and with one name at least below a directory. *)
Lemma files_under_paths (os : GOOS) (n : node) :
  walked.well_named os n = true ->
  forall path p,
    In p (map fst (expected.files_under path n)) ->
    exists q, p = (path ++ q)%list
              /\ forallb (walked.plain_name os) q = true
              /\ (IsDir n = true -> q <> []).
Proof.
  induction n as [e|f|e|entries IH] using node_tree_ind; intros Hnamed path p Hin.
  - contradiction.
  - destruct f as [[content [err|]]|err]; cbn in Hin; try contradiction.
    destruct Hin as [<-|[]]. exists []. rewrite app_nil_r. cbn. intuition discriminate.
  - contradiction.
  - rewrite files_under_Dir in Hin. rewrite well_named_Dir in Hnamed.
    apply andb_true_iff in Hnamed as [Hnamed Hchildren].
    apply andb_true_iff in Hnamed as [Hplain _].
    apply in_map_iff in Hin as ([p' content] & <- & Hin). cbn.
    apply in_flat_map in Hin as ([name child] & Hentry & Hin). cbn in Hin.
    rewrite Forall_forall in IH. specialize (IH _ Hentry). cbn in IH.
    rewrite forallb_forall in Hchildren. specialize (Hchildren _ Hentry). cbn in Hchildren.
    destruct (IH Hchildren (path ++ [name])%list p') as (q & -> & Hq & _).
    { apply in_map_iff. exists (p', content). auto. }
    exists (name :: q). rewrite <- app_assoc. cbn. split; [reflexivity|].
    split; [|discriminate].
    rewrite Hq, andb_true_r. rewrite forallb_forall in Hplain. apply Hplain.
    apply in_map_iff. exists (name, child). auto.
Qed.

Lemma files_under_NoDup (os : GOOS) (n : node) :
  walked.well_named os n = true ->
  forall path, NoDup (map fst (expected.files_under path n)).
Proof.
  induction n as [e|f|e|entries IH] using node_tree_ind; intros Hnamed path;
    try (cbn; constructor).
  - destruct f as [[content [err|]]|err]; cbn; repeat constructor. intros [].
  - rewrite files_under_Dir. rewrite well_named_Dir in Hnamed.
    apply andb_true_iff in Hnamed as [Hnamed Hchildren].
    apply andb_true_iff in Hnamed as [_ Hdistinct].
    apply distinct_NoDup in Hdistinct.
    induction entries as [|[name child] entries IHentries]; [constructor|].
    cbn in *. rewrite map_app.
    apply andb_true_iff in Hchildren as [Hchild Hchildren].
    inversion IH as [|? ? Hc Hcs]; subst.
    inversion Hdistinct as [|? ? Hfresh Hrest]; subst.
    apply NoDup_app.
    + apply Hc, Hchild.
    + apply IHentries; assumption.
    + intros p Hp Hp'.
      destruct (@files_under_paths os child Hchild (path ++ [name])%list p Hp)
        as (q & -> & _).
      apply in_map_iff in Hp' as ([p' content] & Hp' & Hin). cbn in Hp'. subst p'.
      apply in_flat_map in Hin as ([name' child'] & Hentry & Hin). cbn in Hin.
      rewrite forallb_forall in Hchildren. specialize (Hchildren _ Hentry).
      cbn in Hchildren.
      destruct (@files_under_paths os child' Hchildren (path ++ [name'])%list
                  ((path ++ [name]) ++ q)%list) as (q' & Heq & _).
      { apply in_map_iff. exists ((path ++ [name]) ++ q, content)%list. auto. }
      rewrite <- !app_assoc in Heq. apply app_inv_head in Heq.
      injection Heq as -> _. apply Hfresh.
      apply in_map_iff. exists (name', child'). auto.
Qed.

Lemma ReplaceAll_without (s : string) (old new : ascii) :
  walked.free_of old s = true -> strings_ReplaceAll s old new = s.
Proof.
  unfold walked.free_of. induction s as [|c s IH]; cbn; [reflexivity|].
  intros H. apply andb_true_iff in H as [Hc Hs]. apply negb_true_iff in Hc.
  now rewrite Hc, IH.
Qed.

Lemma ToSlash_plain (os : GOOS) (name : string) :
  walked.plain_name os name = true -> filepath.ToSlash os name = name.
Proof.
  intros H. unfold walked.plain_name in H. rewrite !andb_true_iff in H.
  destruct H as [[[_ Hsep] _] _]. destruct os; [reflexivity|].
  unfold filepath.ToSlash. cbn [filepath.Separator Ascii.eqb]. cbn.
  apply ReplaceAll_without, Hsep.
Qed.

Lemma split_slash_free (s : string) :
  walked.free_of "/"%char s = true -> walked.split_slash s = [s].
Proof.
  unfold walked.free_of. induction s as [|c s IH]; cbn; [reflexivity|].
  intros H. apply andb_true_iff in H as [Hc Hs]. apply negb_true_iff in Hc.
  now rewrite Hc, IH.
Qed.

Lemma split_slash_app (s t : string) :
  walked.free_of "/"%char s = true ->
  walked.split_slash (s ++ String "/"%char t) = s :: walked.split_slash t.
Proof.
  unfold walked.free_of. induction s as [|c s IH]; cbn; [reflexivity|].
  intros H. apply andb_true_iff in H as [Hc Hs]. apply negb_true_iff in Hc.
  now rewrite Hc, IH.
Qed.

Lemma split_slash_Join (names : list string) :
  names <> [] ->
  forallb (walked.free_of "/"%char) names = true ->
  walked.split_slash (strings_Join names "/") = names.
Proof.
  induction names as [|n names IH]; [congruence|]. intros _ H.
  cbn in H. apply andb_true_iff in H as [Hn Hrest].
  destruct names as [|n' names]; [now apply split_slash_free|].
  change (strings_Join (n :: n' :: names) "/")
    with (n ++ String "/"%char (strings_Join (n' :: names) "/")).
  rewrite split_slash_app, IH; auto. discriminate.
Qed.

(** Two paths of plain names that are written alike are the same path. *)
Lemma slash_path_plain (os : GOOS) (names : list string) :
  names <> [] ->
  forallb (walked.plain_name os) names = true ->
  walked.split_slash (expected.slash_path os names) = names.
Proof.
  intros Hne Hplain. destruct names as [|n names]; [congruence|].
  unfold expected.slash_path.
  assert (Hmap : map (filepath.ToSlash os) (n :: names) = n :: names).
  { rewrite <- (map_id (n :: names)) at 2. apply map_ext_in.
    intros x Hx. apply ToSlash_plain.
    rewrite forallb_forall in Hplain. apply Hplain, Hx. }
  rewrite Hmap. apply split_slash_Join; [discriminate|].
  rewrite forallb_forall in *. intros x Hx.
  specialize (Hplain x Hx). unfold walked.plain_name in Hplain.
  rewrite !andb_true_iff in Hplain. destruct Hplain as [[[H _] _] _]. exact H.
Qed.

(** The paths of plain names hold neither carriage return nor line feed. *)
Lemma slash_path_one_line (os : GOOS) (names : list string) (c : ascii) :
  c = "013"%char \/ c = "010"%char ->
  forallb (walked.plain_name os) names = true ->
  walked.free_of c (expected.slash_path os names) = true.
Proof.
  intros Hc Hplain. unfold expected.slash_path.
  destruct names as [|n names]; [destruct Hc as [-> | ->]; reflexivity|].
  apply Join_free_of; [destruct Hc as [-> | ->]; reflexivity|].
  rewrite forallb_forall in *. intros x Hx.
  apply in_map_iff in Hx as (y & <- & Hy). rewrite ToSlash_plain by auto.
  specialize (Hplain y Hy). unfold walked.plain_name in Hplain.
  rewrite !andb_true_iff in Hplain. destruct Hplain as [[[_ _] Hcr] Hlf].
  destruct Hc as [-> | ->]; assumption.
Qed.

(** On texts without carriage return and line feed the writer writes
    different texts differently. *)
Lemma escapeQuotes_injective (s : string) :
  forall t,
    walked.free_of "013"%char s = true -> walked.free_of "010"%char s = true ->
    walked.free_of "013"%char t = true -> walked.free_of "010"%char t = true ->
    multipart.escapeQuotes s = multipart.escapeQuotes t -> s = t.
Proof.
  unfold walked.free_of.
  induction s as [|c s IH]; intros [|d t]; cbn;
    rewrite ?andb_true_iff, ?negb_true_iff.
  - reflexivity.
  - intros _ _ [Hd1 _] [Hd2 _]. rewrite Hd1, Hd2.
    destruct (Ascii.eqb d "\"%char); [discriminate|].
    destruct (Ascii.eqb d "034"%char); discriminate.
  - intros [Hc1 _] [Hc2 _] _ _. rewrite Hc1, Hc2.
    destruct (Ascii.eqb c "\"%char); [discriminate|].
    destruct (Ascii.eqb c "034"%char); discriminate.
  - intros [Hc1 Hs1] [Hc2 Hs2] [Hd1 Ht1] [Hd2 Ht2]. rewrite Hc1, Hc2, Hd1, Hd2.
    destruct (Ascii.eqb_spec c "\"%char) as [-> | Hcb];
      destruct (Ascii.eqb_spec d "\"%char) as [-> | Hdb].
    + intros [= H]. f_equal. auto.
    + destruct (Ascii.eqb_spec d "034"%char) as [-> | Hdq].
      * intros [= H]. 
      * intros [= H _]. congruence.
    + destruct (Ascii.eqb_spec c "034"%char) as [-> | Hcq].
      * intros [= H].
      * intros [= H _]. congruence.
    + destruct (Ascii.eqb_spec c "034"%char) as [-> | Hcq];
        destruct (Ascii.eqb_spec d "034"%char) as [-> | Hdq].
      * intros [= H]. f_equal. auto.
      * intros [= H _]. congruence.
      * intros [= H _]. congruence.
      * intros [= -> H]. f_equal. auto.
Qed.

Lemma file_names_NoDup (os : GOOS) (n : node) :
  walked.well_named os n = true ->
  NoDup (map (fun f => expected.slash_path os (fst f)) (expected.files_under [] n)).
Proof.
  intros Hnamed.
  rewrite <- (map_map fst (expected.slash_path os)).
  apply NoDup_map_NoDup_ForallPairs; [|apply (@files_under_NoDup os n Hnamed)].
  intros p p' Hp Hp' Heq.
  destruct (@files_under_paths os n Hnamed [] p Hp) as (q & -> & Hq & Hdir).
  destruct (@files_under_paths os n Hnamed [] p' Hp') as (q' & -> & Hq' & Hdir').
  cbn in *. destruct (IsDir n) eqn:Edir.
  - rewrite <- (@slash_path_plain os q), <- (@slash_path_plain os q'); auto.
    now rewrite Heq.
  - destruct n as [e|f|e|entries]; cbn in Edir; try discriminate; try contradiction.
    destruct f as [[content [err|]]|err]; cbn in Hp, Hp'; try contradiction.
    destruct Hp as [<-|[]], Hp' as [<-|[]]. reflexivity.
Qed.

Lemma written_names_NoDup (os : GOOS) (n : node) :
  walked.well_named os n = true ->
  NoDup (map (fun f => multipart.escapeQuotes (expected.slash_path os (fst f)))
           (expected.files_under [] n)).
Proof.
  intros Hnamed.
  rewrite <- (map_map (fun f => expected.slash_path os (fst f)) multipart.escapeQuotes).
  apply NoDup_map_NoDup_ForallPairs; [|apply file_names_NoDup, Hnamed].
  intros a b Ha Hb Heq.
  apply in_map_iff in Ha as ([p c] & <- & Hp).
  apply in_map_iff in Hb as ([p' c'] & <- & Hp'). cbn in *.
  destruct (@files_under_paths os n Hnamed [] p) as (q & -> & Hq & _).
  { apply in_map_iff. exists (p, c). auto. }
  destruct (@files_under_paths os n Hnamed [] p') as (q' & -> & Hq' & _).
  { apply in_map_iff. exists (p', c'). auto. }
  cbn in *.
  apply (@escapeQuotes_injective (expected.slash_path os q)
           (expected.slash_path os q')); auto using slash_path_one_line.
Qed.

Section distinct_names.
Variable env : Env.
Variable remote : Remote.

(** X19.  When every directory below the source directory lists each name
    once, and the names are plain (no slash, carriage return or line feed in
    them and, on Windows, no backslash), no two parts of a deploy request
    have the same file name, written as the multipart writer writes it. *)
Theorem file_names_sent_once
        (data : FunctionResourceModel) (rq : api.Request)
        (ref : string) (params : api.V1DeployAFunctionParams)
        (contentType : string) (body : list multipart.Part) :
  walked.well_named (goos env) (disk env (types.ValueString (SourceDir data))) = true ->
  In rq (requests (run remote (deployFunction env data))) ->
  rq = api.V1DeployAFunctionWithBodyWithResponse ref params contentType body ->
  NoDup (map multipart.FileName body).
Proof.
  intros Hnamed Hrq ->.
  rewrite deploy_first_error in Hrq. unfold run in Hrq.
  destruct (walked.first_error _); cbn in Hrq; [contradiction|].
  destruct Hrq as [Hrq|[]]. unfold expected.request in Hrq.
  injection Hrq as _ _ _ <-.
  unfold expected.form. cbn. rewrite map_map. cbn. constructor.
  - intros Hin. apply in_map_iff in Hin as (f & Hf & _). discriminate Hf.
  - rewrite <- (map_map (fun f => multipart.escapeQuotes
                                     (expected.slash_path (goos env) (fst f))) Some).
    apply NoDup_map_NoDup_ForallPairs; [|apply written_names_NoDup, Hnamed].
    intros a b _ _ [= H]. exact H.
Qed.

End distinct_names.

(** ** The further properties at the sample projects *)

Example broken_source_error :
  walked.first_error cases.broken = Some "failed to open file: open b.ts: permission denied".
Proof. reflexivity. Qed.

Example line_feed_written :
  multipart.escapeQuotes cases.two_lines = "a%0Ab.ts".
Proof. reflexivity. Qed.

Example quote_written :
  multipart.escapeQuotes (String "a" (String "034" (String "\" "b")))
  = String "a" (String "\" (String "034" (String "\" (String "\" "b")))).
Proof. reflexivity. Qed.

Example same_error_added_once :
  length (diag.AddError "Client Error" "again"
            (diag.AddError "Client Error" "again" [])) = 1%nat.
Proof. reflexivity. Qed.

Example read_only_id_refused :
  diag.HasError
    (ValidateConfig Schema
       (set_Id (types.Known "func-uuid-1234") sample.config)) = true.
Proof. reflexivity. Qed.

Example quote_in_file_name_on_windows :
  multipart.FileName
    (expected.file_part windows ([String "a" (String "034" "b")], []))
  = Some (String "a" (String "\" (String "034" "b"))).
Proof. reflexivity. Qed.

Example split_slash_example :
  walked.split_slash "lib/util.ts" = ["lib"; "util.ts"].
Proof. reflexivity. Qed.

Lemma deploy_stops_at_first_error_witness :
  deployFunction (cases.env_with unix cases.broken) (tfsdk.Get_value sample.plan)
  = Ret (client_error
           "Unable to read source directory, got error: failed to open file: open b.ts: permission denied",
         tfsdk.Get_value sample.plan).
Proof.
  apply (@deploy_stops_at_first_error (cases.env_with unix cases.broken)
           (tfsdk.Get_value sample.plan)
           [("a.ts", File (inl (whole sample.util_ts)))]
           [("c.ts", NoEnt "lstat c.ts: no such file or directory")]
           "b.ts" (File (inr "open b.ts: permission denied"))
           "failed to open file: open b.ts: permission denied");
    reflexivity.
Defined.

Lemma read_success_state_witness :
  resource.State
    (value (run sample.remote_ok
              (Read {| resource.read_State := sample.prior |} sample.current)))
  = Some sample.state.
Proof.
  apply (@read_success_state sample.remote_ok sample.prior sample.current
           {| api.get_Body := []; api.get_StatusCode := 200;
              api.JSON200 := Some sample.found |}
           sample.found);
    reflexivity.
Defined.

Lemma read_error_iff_witness :
  let out := run cases.remote_500
               (Read {| resource.read_State := sample.prior |} sample.current) in
  diag.HasError (resource.Diagnostics (value out)) = true
  /\ resource.State (value out) = Some sample.state.
Proof.
  destruct (@read_error_iff cases.remote_500 sample.prior sample.current)
    as [Herr Hstate]; [reflexivity|].
  assert (H : diag.HasError
                (resource.Diagnostics
                   (value (run cases.remote_500
                             (Read {| resource.read_State := sample.prior |}
                                   sample.current)))) = true).
  { apply Herr. cbn. split; [discriminate | reflexivity]. }
  split; [exact H | exact (Hstate H)].
Defined.

Lemma delete_outcome_witness :
  let out := run cases.remote_500
               (Delete {| resource.delete_State := sample.prior |} sample.current) in
  resource.State (value out) = Some sample.state
  /\ diag.HasError (resource.Diagnostics (value out)) = true.
Proof.
  destruct (@delete_outcome cases.remote_500 sample.prior sample.current)
    as [Hstate Herr].
  split; [exact Hstate|].
  apply Herr; [reflexivity|]. cbn. split; discriminate.
Defined.

Lemma failure_leaves_model_witness :
  snd (value (run cases.remote_500
                (deployFunction sample.env (tfsdk.Get_value sample.plan))))
  = tfsdk.Get_value sample.plan
  /\ snd (value (run cases.remote_500 (readFunction sample.state))) = sample.state.
Proof.
  destruct (@failure_leaves_model sample.env cases.remote_500
              (tfsdk.Get_value sample.plan)) as (Hdeploy & _ & _).
  destruct (@failure_leaves_model sample.env cases.remote_500 sample.state)
    as (_ & Hread & _).
  split; [apply Hdeploy | apply Hread]; reflexivity.
Defined.

Lemma refresh_is_stable_witness :
  let first := value (run sample.remote_ok
                        (Read {| resource.read_State := sample.prior |} sample.current)) in
  value (run sample.remote_ok
           (Read {| resource.read_State :=
                      {| tfsdk.Get_diags := []; tfsdk.Get_value := sample.state |} |}
                 first))
  = first.
Proof.
  apply (@refresh_is_stable sample.remote_ok sample.prior sample.current
           (inl {| api.get_Body := []; api.get_StatusCode := 200;
                   api.JSON200 := Some sample.found |})
           sample.state).
  - intros history projectRef functionSlug. reflexivity.
  - reflexivity.
  - reflexivity.
Defined.

Lemma read_keeps_state_known_witness :
  let out := value (run sample.remote_ok
                      (Read {| resource.read_State := sample.prior |} sample.current)) in
  resource.State out = resource.State sample.current
  \/ exists m, resource.State out = Some m /\ known.model m = true.
Proof.
  apply (@read_keeps_state_known sample.remote_ok sample.prior sample.current).
  reflexivity.
Defined.

(** The sample reply to the deploy carries no update time, and a plan for a
    new function does not know one: the stored state is left with an unknown
    update time. *)
Lemma create_settles_state_witness :
  exists m,
    resource.State
      (value (run sample.remote_ok
                (Create sample.env {| resource.create_Plan := sample.plan |}
                        sample.fresh))) = Some m
    /\ types.IsUnknown (CreatedAt m) = false
    /\ types.IsUnknown (UpdatedAt m) = true.
Proof.
  destruct (@create_settles_state sample.env sample.remote_ok sample.plan sample.fresh
              {| api.deploy_Body := []; api.deploy_StatusCode := 201;
                 api.JSON201 := Some sample.deployed |}
              sample.deployed)
    as (m & Hstate & Hcreated & Hupdated & _); try reflexivity.
  exists m. split; [exact Hstate|]. split.
  - destruct (types.IsUnknown (CreatedAt m)); [|reflexivity].
    destruct Hcreated as [Hcreated _]. destruct (Hcreated eq_refl) as [H _].
    discriminate H.
  - apply Hupdated. split; reflexivity.
Defined.

Lemma metadata_object_witness :
  exists members,
    Marshal (deployMetadata (cases.env_with windows sample.source) cases.config_windows)
    = JObject members
    /\ In ("verify_jwt", JBool false) members.
Proof.
  destruct (metadata_object (cases.env_with windows sample.source) cases.config_windows)
    as (members & Hobject & _ & _ & _ & Hjwt & _).
  exists members. split; [exact Hobject|]. apply Hjwt. reflexivity.
Defined.

Lemma hollow_source_deploys_metadata_only_witness :
  requests (run sample.remote_ok
              (deployFunction (cases.env_with unix cases.hollow)
                 (tfsdk.Get_value sample.plan)))
  = [api.V1DeployAFunctionWithBodyWithResponse
       "mayuaycdtijbctgqbycg" {| api.Slug := Some "hello-world" |}
       "multipart/form-data; boundary=0a1b2c3d"
       [expected.metadata_part (cases.env_with unix cases.hollow)
          (tfsdk.Get_value sample.plan)]].
Proof.
  rewrite (@hollow_source_deploys_metadata_only (cases.env_with unix cases.hollow)
             (tfsdk.Get_value sample.plan)); reflexivity.
Defined.

Lemma paths_sent_with_forward_slashes_witness :
  md_EntrypointPath
    (deployMetadata (cases.env_with windows sample.source) cases.config_windows)
  = "src/index.ts"
  /\ walked.free_of "\"%char
       (md_EntrypointPath
          (deployMetadata (cases.env_with windows sample.source) cases.config_windows))
     = true
  /\ md_EntrypointPath
       (deployMetadata (cases.env_with unix sample.source) cases.config_windows)
     = "src\index.ts"
  /\ exists path,
      "lib/util.ts" = multipart.escapeQuotes path
      /\ walked.free_of "\"%char path = true.
Proof.
  destruct (@paths_sent_with_forward_slashes (cases.env_with windows sample.source)
              sample.remote_ok cases.config_windows) as [Hwindows _].
  destruct (@paths_sent_with_forward_slashes (cases.env_with unix sample.source)
              sample.remote_ok cases.config_windows) as [_ Hunix].
  split; [reflexivity|]. split; [|split].
  - destruct (Hwindows eq_refl) as [H _]. exact H.
  - destruct (Hunix eq_refl) as [H _]. exact H.
  - destruct (Hwindows eq_refl) as (_ & _ & Hnames).
    destruct (Hnames
                (expected.request (cases.env_with windows sample.source)
                   cases.config_windows)
                "mayuaycdtijbctgqbycg" {| api.Slug := Some "hello-world" |}
                "multipart/form-data; boundary=0a1b2c3d"
                (expected.form (cases.env_with windows sample.source)
                   cases.config_windows)
                (expected.file_part windows (["lib"; "util.ts"], sample.util_ts))
                "lib/util.ts")
      as (path & Hname & Hfree & _).
    + left. reflexivity.
    + reflexivity.
    + right. right. left. reflexivity.
    + reflexivity.
    + exists path. split; assumption.
Defined.

Lemma file_names_sent_once_witness :
  NoDup (map multipart.FileName
           (expected.form sample.env (tfsdk.Get_value sample.plan))).
Proof.
  apply (@file_names_sent_once sample.env sample.remote_ok
           (tfsdk.Get_value sample.plan)
           (expected.request sample.env (tfsdk.Get_value sample.plan))
           "mayuaycdtijbctgqbycg" {| api.Slug := Some "hello-world" |}
           "multipart/form-data; boundary=0a1b2c3d"
           (expected.form sample.env (tfsdk.Get_value sample.plan))).
  - reflexivity.
  - left. reflexivity.
  - reflexivity.
Defined.
